(** * RecoveryManager: the call-orchestration pipeline of [voice.py]

    A shallow embedding of the debt-collection voice service: the customer
    record normaliser, the CRM lookup, the script builder, the voice session
    manager and the webhook handlers, followed by the properties the
    specification states about them.

    Conventions of the embedding.
    - A Python [str] is a [string]; its characters are read as the code
      points below 256.
    - [Optional[str]] is [option string]; [None] is Python's [None].
    - A [dict] with string keys is a [gmap string _].
    - Every call to a collaborator (CRM, voice provider, telephony provider,
      file system, clock) is answered by the environment [Env]; the calls
      made and the lines printed or logged are collected in order as
      [event]s.
    - The three module-level variables are the record [Globals]. *)

From Stdlib Require Import String Ascii List NArith ZArith Lia Bool.
From Stdlib Require Import DecimalString.
From stdpp Require Import base option gmap strings list.

Import ListNotations.
Local Open Scope string_scope.
Local Open Scope list_scope.

(** ** Python strings *)

Module Py.

(** The double quote character, for text that contains it. *)
Definition dq : string := String "034"%char EmptyString.

(** The line feed. *)
Definition nl : string := String "010"%char EmptyString.

(** [str(n)] for a non-negative integer. *)
Definition str_of_N (n : N) : string := NilZero.string_of_uint (N.to_uint n).

(** [str(x)] for [x : Optional[str]], as an f-string renders it. *)
Definition str_of_opt (x : option string) : string :=
  match x with
  | Some s => s
  | None => "None"
  end.

(** The characters [str.strip()] removes: Python's [str.isspace] on the code
    points below 256 (9-13, 28-32, 0x85, 0xA0). *)
Definition isspace (c : ascii) : bool :=
  let n := N_of_ascii c in
  ((9 <=? n) && (n <=? 13) || (28 <=? n) && (n <=? 32)
   || (n =? 133) || (n =? 160))%N.

Fixpoint lstrip (s : string) : string :=
  match s with
  | String c r => if isspace c then lstrip r else s
  | EmptyString => EmptyString
  end.

(** [rstrip]: a character is dropped when it is a space and nothing but
    spaces follows it. *)
Fixpoint rstrip (s : string) : string :=
  match s with
  | String c r =>
      match rstrip r with
      | EmptyString => if isspace c then EmptyString else String c EmptyString
      | r' => String c r'
      end
  | EmptyString => EmptyString
  end.

Definition strip (s : string) : string := rstrip (lstrip s).

(** [width]-digit, zero-padded decimal, as [strftime] prints its fields. *)
Fixpoint zeros (k : nat) : string :=
  match k with
  | O => EmptyString
  | S k' => String "0"%char (zeros k')
  end.

Definition zpad (width : nat) (n : N) : string :=
  let d := str_of_N n in
  zeros (width - String.length d) +:+ d.

(** [needle in hay]. *)
Definition contains (needle hay : string) : Prop :=
  exists pre post : string, hay = pre +:+ needle +:+ post.

End Py.

(** ** Exceptions

    [HTTPException] is FastAPI's; [RequestException] stands for
    [requests.RequestException] and its subclasses; [Exception cls msg] is
    any other subclass of Python's [Exception], named by its class. All three
    are caught by [except Exception]. *)

Inductive exn : Type :=
| HTTPException (status_code : N) (detail : string)
| RequestException (msg : string)
| Exception (cls : string) (msg : string).

(** [str(e)]. Starlette's [HTTPException.__str__] prints the status code, a
    colon and the detail. *)
Definition str_exn (e : exn) : string :=
  match e with
  | HTTPException sc d => Py.str_of_N sc +:+ ": " +:+ d
  | RequestException m => m
  | Exception _ m => m
  end.

(** ** JSON values, as [response.json()] returns them

    Numbers are integers here; objects keep their fields in order. *)

#[warnings="-register-all"]
Inductive json : Type :=
| JNull
| JBool (b : bool)
| JNum (n : Z)
| JStr (s : string)
| JArr (items : list json)
| JObj (fields : list (string * json)).

(** Python truthiness of a JSON value. *)
Definition truthy (j : json) : bool :=
  match j with
  | JNull => false
  | JBool b => b
  | JNum n => negb (n =? 0)%Z
  | JStr s => negb (String.eqb s "")
  | JArr l => match l with [] => false | _ => true end
  | JObj f => match f with [] => false | _ => true end
  end.

Fixpoint assoc (k : string) (fields : list (string * json)) : option json :=
  match fields with
  | [] => None
  | (k', v) :: r => if String.eqb k k' then Some v else assoc k r
  end.

(** [j.get(k)]: [None] for a missing key, [AttributeError] when [j] is not
    a dict. *)
Definition json_get (j : json) (k : string) : exn + json :=
  match j with
  | JObj f => inr (default JNull (assoc k f))
  | _ => inl (Exception "AttributeError" "object has no attribute 'get'")
  end.

(** ** The clock *)

Record datetime : Type := {
  year : N; month : N; day : N;
  hour : N; minute : N; second : N;
  microsecond : N
}.

(** [strftime("%Y-%m-%d")] *)
Definition strftime_Ymd (t : datetime) : string :=
  Py.zpad 4 (year t) +:+ "-" +:+ Py.zpad 2 (month t) +:+ "-" +:+ Py.zpad 2 (day t).

(** [strftime("%Y%m%d_%H%M%S")] *)
Definition strftime_stamp (t : datetime) : string :=
  Py.zpad 4 (year t) +:+ Py.zpad 2 (month t) +:+ Py.zpad 2 (day t) +:+ "_"
  +:+ Py.zpad 2 (hour t) +:+ Py.zpad 2 (minute t) +:+ Py.zpad 2 (second t).

(** ** Pydantic models *)

Record ContactResponse : Type := {
  bank_name : string;
  customer_name : string;
  loan_type : string;
  outstanding_amount : string;
  missed_emi_count : string;
  emi_amount : string;
  due_date : string;
  proposed_months : string;
  amount : string;
  months : string;
  phone_number : string;
  call_status : string;
  number_of_call_attempts : string;
  call_lifted_time : string;
  secure_payment_link : string;
  preferred_callback_time : string;
  main_message : string;
  dpd_days : string;
  date : string;
  agent_name : string
}.

Record InitiateCallResponse : Type := {
  icr_call_sid : string;
  icr_join_url : string;
  icr_call_id : option string;
  icr_message : string
}.

Record TranscriptResponse : Type := {
  tr_call_id : string;
  tr_transcript : string;
  tr_message : string
}.

(** Pydantic's check of a [str] field: a string passes, anything else
    (here [None], a JSON object, ...) is a validation error. The error is
    given by the model and the fields it rejects, not by pydantic's own
    wording. *)
Definition invalid_fields (kw : list (string * option string)) : list string :=
  omap (fun '(name, v) => match v with None => Some name | Some _ => None end) kw.

Definition ValidationError (model : string) (fields : list string) : exn :=
  Exception "ValidationError"
    (model +:+ ": " +:+ String.concat ", " fields).

Definition as_str (j : json) : option string :=
  match j with
  | JStr s => Some s
  | _ => None
  end.

(** ** Customer Record Normalizer: class [CustomerData] *)

Section CustomerData.

(** [DESTINATION_PHONE_NUMBER], read from the process environment at
    import time. *)
Variable DESTINATION_PHONE_NUMBER : string.

(** [contact_data.get(key, default)] *)
Definition py_get (contact_data : gmap string (option string))
    (key : string) (dflt : option string) : option string :=
  default dflt (contact_data !! key).

Definition _build_main_message (contact_data : gmap string (option string)) : string :=
  let customer_name := py_get contact_data "customer_name" (Some "") in
  let bank_name := py_get contact_data "bank_name" (Some "Example Bank") in
  let loan_type := py_get contact_data "loan_type" (Some "") in
  let outstanding_amount := py_get contact_data "outstanding_amount" (Some "") in
  let missed_emi_count := py_get contact_data "missed_emi_count" (Some "") in
  let emi_amount := py_get contact_data "emi_amount" (Some "") in
  let dpd_days := py_get contact_data "dpd_days" (Some "") in
  let due_date := py_get contact_data "due_date" (Some "") in
  let secure_payment_link :=
    py_get contact_data "secure_payment_link" (Some "https://example.com/payment") in
  "Hello " +:+ Py.str_of_opt customer_name
  +:+ ", this is " +:+ Py.str_of_opt bank_name
  +:+ " regarding your " +:+ Py.str_of_opt loan_type
  +:+ ". Your outstanding balance is " +:+ Py.str_of_opt outstanding_amount
  +:+ " rupees. You have missed " +:+ Py.str_of_opt missed_emi_count
  +:+ " EMI payments of " +:+ Py.str_of_opt emi_amount
  +:+ " rupees each. Your account is " +:+ Py.str_of_opt dpd_days
  +:+ " days past due as of " +:+ Py.str_of_opt due_date
  +:+ ". Please make a payment today via our mobile app at "
  +:+ Py.str_of_opt secure_payment_link +:+ ".".

(** The keyword arguments of [ContactResponse(...)], in the order of the
    model's fields. [customer_name] is already stripped, [main_message],
    [date] and [agent_name] are strings by construction. *)
Definition contact_kwargs (contact_data : gmap string (option string))
    (customer_name main_message date : string) : list (string * option string) :=
  [ ("bank_name", py_get contact_data "bank_name" (Some "Example Bank"));
    ("customer_name", Some customer_name);
    ("loan_type", py_get contact_data "loan_type" (Some ""));
    ("outstanding_amount", py_get contact_data "outstanding_amount" (Some ""));
    ("missed_emi_count", py_get contact_data "missed_emi_count" (Some ""));
    ("emi_amount", py_get contact_data "emi_amount" (Some ""));
    ("due_date", py_get contact_data "due_date" (Some ""));
    ("proposed_months", py_get contact_data "proposed_months" (Some ""));
    ("amount", py_get contact_data "amount" (Some ""));
    ("months", py_get contact_data "months" (Some ""));
    ("phone_number", py_get contact_data "phone_number" (Some DESTINATION_PHONE_NUMBER));
    ("call_status", py_get contact_data "call_status" (Some ""));
    ("number_of_call_attempts", py_get contact_data "number_of_call_attempts" (Some ""));
    ("call_lifted_time", py_get contact_data "call_lifted_time" (Some ""));
    ("secure_payment_link",
      py_get contact_data "secure_payment_link" (Some "https://example.com/payment"));
    ("preferred_callback_time", py_get contact_data "preferred_callback_time" (Some ""));
    ("main_message", Some main_message);
    ("dpd_days", py_get contact_data "dpd_days" (Some ""));
    ("date", Some date);
    ("agent_name", Some "Yaswanth") ].

(** The value of a keyword argument once validation has passed. *)
Definition kwarg (kw : list (string * option string)) (name : string) : string :=
  match list_find (fun p => String.eqb (fst p) name) kw with
  | Some (_, (_, Some s)) => s
  | _ => ""
  end.

(** The constructor of [ContactResponse], given its keyword arguments:
    every field must be a string. *)
Definition ContactResponse_init (kw : list (string * option string))
    : exn + ContactResponse :=
  match invalid_fields kw with
  | [] =>
      inr {| bank_name := kwarg kw "bank_name";
             customer_name := kwarg kw "customer_name";
             loan_type := kwarg kw "loan_type";
             outstanding_amount := kwarg kw "outstanding_amount";
             missed_emi_count := kwarg kw "missed_emi_count";
             emi_amount := kwarg kw "emi_amount";
             due_date := kwarg kw "due_date";
             proposed_months := kwarg kw "proposed_months";
             amount := kwarg kw "amount";
             months := kwarg kw "months";
             phone_number := kwarg kw "phone_number";
             call_status := kwarg kw "call_status";
             number_of_call_attempts := kwarg kw "number_of_call_attempts";
             call_lifted_time := kwarg kw "call_lifted_time";
             secure_payment_link := kwarg kw "secure_payment_link";
             preferred_callback_time := kwarg kw "preferred_callback_time";
             main_message := kwarg kw "main_message";
             dpd_days := kwarg kw "dpd_days";
             date := kwarg kw "date";
             agent_name := kwarg kw "agent_name" |}
  | bad => inl (ValidationError "ContactResponse" bad)
  end.

(** [create_response_object]: the message is built first, then the keyword
    arguments are evaluated ([.strip()] on a [None] name raises), then the
    model validates them. [now] is the value of [datetime.now()]. *)
Definition create_response_object (now : datetime)
    (contact_data : gmap string (option string)) : exn + ContactResponse :=
  let main_message := _build_main_message contact_data in
  match py_get contact_data "customer_name" (Some "") with
  | None =>
      inl (Exception "AttributeError" "'NoneType' object has no attribute 'strip'")
  | Some raw_name =>
      ContactResponse_init
        (contact_kwargs contact_data (Py.strip raw_name) main_message (strftime_Ymd now))
  end.

End CustomerData.

(** ** [str.format] with keyword arguments

    The format string is read left to right: [{{] and [}}] are literal
    braces, [{name}] is replaced by the keyword argument [name]. Only plain
    field names are modelled (no conversion, format specification, attribute
    or index), which is all the template below uses. The first error met,
    reading left to right, is the one raised. *)

Inductive seg : Type :=
| Lit (c : ascii)
| Field (name : string)
| Malformed (msg : string).

Inductive scan_state : Type :=
| Text
| Opened
| Closed
| InField (name : string).

Definition is_lbrace (c : ascii) : bool := Ascii.eqb c "{"%char.
Definition is_rbrace (c : ascii) : bool := Ascii.eqb c "}"%char.

Fixpoint scan (st : scan_state) (s : string) : list seg :=
  match s with
  | EmptyString =>
      match st with
      | Text => []
      | Opened => [Malformed "Single '{' encountered in format string"]
      | Closed => [Malformed "Single '}' encountered in format string"]
      | InField _ => [Malformed "expected '}' before end of string"]
      end
  | String c r =>
      match st with
      | Text =>
          if is_lbrace c then scan Opened r
          else if is_rbrace c then scan Closed r
          else Lit c :: scan Text r
      | Opened =>
          if is_lbrace c then Lit c :: scan Text r
          else if is_rbrace c then Field EmptyString :: scan Text r
          else scan (InField (String c EmptyString)) r
      | Closed =>
          if is_rbrace c then Lit c :: scan Text r
          else [Malformed "Single '}' encountered in format string"]
      | InField name =>
          if is_rbrace c then Field name :: scan Text r
          else if is_lbrace c then [Malformed "unexpected '{' in field name"]
          else scan (InField (name +:+ String c EmptyString)) r
      end
  end.

Fixpoint kw_lookup (kwargs : list (string * string)) (name : string) : option string :=
  match kwargs with
  | [] => None
  | (k, v) :: r => if String.eqb k name then Some v else kw_lookup r name
  end.

(** The text a segment contributes; an empty field name asks for a
    positional argument, and none is given. *)
Definition render_seg (kwargs : list (string * string)) (sg : seg) : exn + string :=
  match sg with
  | Lit c => inr (String c EmptyString)
  | Field EmptyString =>
      inl (Exception "IndexError" "Replacement index 0 out of range for positional args tuple")
  | Field name =>
      match kw_lookup kwargs name with
      | Some v => inr v
      | None => inl (Exception "KeyError" name)
      end
  | Malformed msg => inl (Exception "ValueError" msg)
  end.

Fixpoint render (kwargs : list (string * string)) (segs : list seg) : exn + string :=
  match segs with
  | [] => inr EmptyString
  | sg :: r =>
      match render_seg kwargs sg with
      | inl e => inl e
      | inr t =>
          match render kwargs r with
          | inl e => inl e
          | inr u => inr (t +:+ u)
          end
      end
  end.

Definition format (template : string) (kwargs : list (string * string)) : exn + string :=
  render kwargs (scan Text template).

(** ** Module-level configuration and state *)

Definition VOICE_API_URL : string := "https://api.ultravox.ai/api/calls".

Definition SYSTEM_PROMPT : string :=
  String.concat Py.nl
    [ "";
      "# Instructions for Voice Agent";
      "- You are {agent_name}, a professional recovery agent for {bank_name}.";
      "- Use a professional, polite tone (e.g., 'Yaswanth' voice, en-IN).";
      "- Replace placeholders with provided customer data.";
      "- Deliver the message clearly, pausing briefly (1-2 seconds) between sentences.";
      "- Detect reluctance indicators (e.g., " +:+ Py.dq +:+ "not now," +:+ Py.dq +:+ " " +:+ Py.dq +:+ "busy," +:+ Py.dq +:+ " " +:+ Py.dq +:+ "later," +:+ Py.dq +:+ " " +:+ Py.dq +:+ "can't talk" +:+ Py.dq +:+ ") in customer responses.";
      "- Keep the total message under 30 seconds unless the customer engages further.";
      "- Log responses for feedback analysis (e.g., customer sentiment, preferred call time).";
      "- When you say " +:+ Py.dq +:+ "Thank you for your time, {customer_name}. We'll follow up later. Goodbye." +:+ Py.dq +:+ " and the user responds with " +:+ Py.dq +:+ "bye" +:+ Py.dq +:+ " or " +:+ Py.dq +:+ "goodbye" +:+ Py.dq +:+ " (case-insensitive), pause for 2 seconds and then end the call.";
      "";
      "# Prompt Flow";
      "1. **Greeting**:";
      "   " +:+ Py.dq +:+ "Hello, this is {bank_name} calling from the recovery department. May I speak with {customer_name}, please?" +:+ Py.dq;
      "";
      "2. **Confirm Identity**:";
      "   - If the customer confirms their identity (e.g., " +:+ Py.dq +:+ "yes," +:+ Py.dq +:+ " " +:+ Py.dq +:+ "speaking," +:+ Py.dq +:+ " or their name), proceed to Main Message.";
      "   - If no response or unclear response after 5 seconds, repeat the greeting once, then end with: " +:+ Py.dq +:+ "We'll try reaching you again later. Thank you." +:+ Py.dq;
      "";
      "3. **Main Message**:";
      "   - In the message if there is any date or money, you should tell the date (e.g.,Twenty Second June of Two Thousand Twenty Five) or money (e.g., Fourty Hundred Rupees) like a human. ";
      "   " +:+ Py.dq +:+ "{main_message}" +:+ Py.dq;
      "";
      "4. **Handle Customer Response**:";
      "   - If the customer responds positively (e.g., " +:+ Py.dq +:+ "okay," +:+ Py.dq +:+ " " +:+ Py.dq +:+ "sure," +:+ Py.dq +:+ " " +:+ Py.dq +:+ "tell me more" +:+ Py.dq +:+ ") or asks about payment:";
      "     - Respond: " +:+ Py.dq +:+ "Thank you, {customer_name}. Would you like assistance with the next steps now?" +:+ Py.dq;
      "     - Wait for response (up to 3 seconds).";
      "     - If no further engagement, end with: " +:+ Py.dq +:+ "Thank you for your time. Please act on this soon to avoid further action. Goodbye." +:+ Py.dq;
      "   - If the customer indicates reluctance (e.g., " +:+ Py.dq +:+ "not now," +:+ Py.dq +:+ " " +:+ Py.dq +:+ "busy," +:+ Py.dq +:+ " " +:+ Py.dq +:+ "call later" +:+ Py.dq +:+ "):";
      "     - Respond: " +:+ Py.dq +:+ "I understand, {customer_name}. Could you please share a preferred time for us to call you back?" +:+ Py.dq;
      "     - Collect response (e.g., " +:+ Py.dq +:+ "tomorrow morning," +:+ Py.dq +:+ " " +:+ Py.dq +:+ "evening" +:+ Py.dq +:+ ") and confirm: " +:+ Py.dq +:+ "Thank you, we'll call you back at {preferred_callback_time}. Have a good day." +:+ Py.dq;
      "     - Log the preferred time for feedback analysis.";
      "   - If no response or negative response (e.g., " +:+ Py.dq +:+ "don't call," +:+ Py.dq +:+ " " +:+ Py.dq +:+ "not interested" +:+ Py.dq +:+ ") after 2 seconds:";
      "     - Respond: " +:+ Py.dq +:+ "Thank you for your time, {customer_name}. We'll follow up later. Goodbye." +:+ Py.dq;
      "";
      "5. **End Call**:";
      "   - Log the interaction with customer_id, response, and any preferred call time for feedback analysis.";
      "" ].

(** The module-level variables [voice_call_id], [twilio_call_id] and
    [transcription_customer_name]. The voice call id is whatever
    [voice_response.get("callId")] gave: a string, or [None]. *)
Record Globals : Type := {
  voice_call_id : option string;
  twilio_call_id : string;
  transcription_customer_name : string
}.

Definition initial_globals : Globals :=
  {| voice_call_id := Some EmptyString;
     twilio_call_id := EmptyString;
     transcription_customer_name := EmptyString |}.

(** ** The collaborators

    What each outside call answers during one request.
    - [hubspot_do_search name]: the [results] of the contact search for
      [customer_name EQ name] (each result given by its [properties]), or the
      exception the client raised.
    - [voice_post url prompt]: [requests.post], [raise_for_status] and
      [response.json()] on the call-creation endpoint; the JSON object is
      given by its string-valued members.
    - [voice_get url]: the same three steps for a [GET].
    - [twilio_calls_create twiml to status_callback]: the new call's [sid].
    - [os_makedirs dir]: [None] when the directory exists afterwards.
    - [open_and_dump path doc]: opening [path] for writing and dumping [doc]
      into it; [None] when the file has been written. *)
Record Env : Type := {
  DESTINATION_PHONE_NUMBER : string;
  datetime_now : datetime;
  hubspot_do_search : string -> exn + list (gmap string (option string));
  voice_post : string -> string -> exn + gmap string string;
  voice_get : string -> exn + json;
  twilio_calls_create : string -> string -> string -> exn + string;
  os_makedirs : string -> option exn;
  open_and_dump : string -> json -> option exn
}.

(** ** What a request does, in order *)

Inductive printable : Type :=
| PStr (s : string)
| POpt (o : option string)
| PJson (j : json)
| PExn (e : exn).

Inductive event : Type :=
| EvPrint (args : list printable)
| EvLogError (msg : string)
| EvSearch (name : string)
| EvPost (url prompt : string)
| EvGet (url : string)
| EvTwilioCreate (twiml to status_callback : string)
| EvMakedirs (dir : string)
| EvOpen (path : string)
| EvFileWritten (path : string) (doc : json).

(** ** Computations: environment, globals, exceptions, events *)

Definition M (A : Type) : Type := Env -> Globals -> (exn + A) * Globals * list event.

Definition ret {A} (a : A) : M A := fun _ g => (inr a, g, []).

Definition raise {A} (e : exn) : M A := fun _ g => (inl e, g, []).

Definition bind {A B} (m : M A) (k : A -> M B) : M B :=
  fun env g =>
    match m env g with
    | (inl e, g1, ev1) => (inl e, g1, ev1)
    | (inr a, g1, ev1) =>
        match k a env g1 with
        | (r, g2, ev2) => (r, g2, ev1 ++ ev2)
        end
    end.

Notation "'let*' x ':=' m 'in' k" := (bind m (fun x => k))
  (at level 10, x name, m at level 100, k at level 200, only parsing).
Notation "m ';;;' k" := (bind m (fun _ => k))
  (at level 100, k at level 200, right associativity, only parsing).

(** [try: body except ...: handler]. [handler e] is [None] when no clause
    catches [e] (or the clause re-raises it). *)
Definition try_except {A} (body : M A) (handler : exn -> option (M A)) : M A :=
  fun env g =>
    match body env g with
    | (inl e, g1, ev1) =>
        match handler e with
        | Some h =>
            match h env g1 with
            | (r, g2, ev2) => (r, g2, ev1 ++ ev2)
            end
        | None => (inl e, g1, ev1)
        end
    | ok => ok
    end.

Definition emit (e : event) : M unit := fun _ g => (inr tt, g, [e]).
Definition print (args : list printable) : M unit := emit (EvPrint args).
Definition print_str (s : string) : M unit := print [PStr s].
Definition logger_error (msg : string) : M unit := emit (EvLogError msg).
Definition ask {A} (f : Env -> A) : M A := fun env g => (inr (f env), g, []).
Definition get_globals : M Globals := fun _ g => (inr g, g, []).
Definition lift {A} (r : exn + A) : M A := fun _ g => (r, g, []).

Definition set_voice_call_id (v : option string) : M unit :=
  fun _ g => (inr tt,
              {| voice_call_id := v;
                 twilio_call_id := twilio_call_id g;
                 transcription_customer_name := transcription_customer_name g |}, []).

Definition set_transcription_customer_name (v : string) : M unit :=
  fun _ g => (inr tt,
              {| voice_call_id := voice_call_id g;
                 twilio_call_id := twilio_call_id g;
                 transcription_customer_name := v |}, []).

Definition set_twilio_call_id (v : string) : M unit :=
  fun _ g => (inr tt,
              {| voice_call_id := voice_call_id g;
                 twilio_call_id := v;
                 transcription_customer_name := transcription_customer_name g |}, []).

(** The catch clauses the source uses. *)
Definition except_Exception {A} (h : exn -> M A) : exn -> option (M A) :=
  fun e => Some (h e).

Definition except_RequestException {A} (h : exn -> M A) : exn -> option (M A) :=
  fun e => match e with RequestException _ => Some (h e) | _ => None end.

(** [except HTTPException: raise], then [except Exception as e: h e]. *)
Definition except_HTTPException_raise_else {A} (h : exn -> M A) : exn -> option (M A) :=
  fun e => match e with HTTPException _ _ => None | _ => Some (h e) end.

(** ** CRM Lookup Client: [HubSpotService] *)

Definition do_search (name : string) : M (list (gmap string (option string))) :=
  fun env g => (hubspot_do_search env name, g, [EvSearch name]).

(** [fetch_contact]: the search, the not-found check and the return are
    all inside the [try] whose only clause is [except Exception]. *)
Definition fetch_contact (customer_name : string) : M (gmap string (option string)) :=
  print_str ("Searching HubSpot for customer_name: " +:+ customer_name) ;;;
  try_except
    (let* results := do_search customer_name in
     print_str "HubSpot API response received" ;;;
     match results with
     | [] =>
         raise (HTTPException 404 ("No contact found for name: " +:+ customer_name))
     | first :: _ => ret first
     end)
    (except_Exception (fun e =>
       logger_error ("HubSpot Error: " +:+ str_exn e) ;;;
       raise (HTTPException 500 ("Failed to fetch HubSpot data: " +:+ str_exn e)))).

(** ** Voice Session Manager: [VoiceService] *)

Definition requests_post (url prompt : string) : M (gmap string string) :=
  fun env g => (voice_post env url prompt, g, [EvPost url prompt]).

Definition requests_get (url : string) : M json :=
  fun env g => (voice_get env url, g, [EvGet url]).

(** The keyword arguments of [SYSTEM_PROMPT.format(...)]. *)
Definition prompt_kwargs (customer_data : ContactResponse) : list (string * string) :=
  [ ("agent_name", agent_name customer_data);
    ("bank_name", bank_name customer_data);
    ("customer_name", customer_name customer_data);
    ("main_message", main_message customer_data);
    ("preferred_callback_time", preferred_callback_time customer_data) ].

Definition formatted_prompt (customer_data : ContactResponse) : exn + string :=
  format SYSTEM_PROMPT (prompt_kwargs customer_data).

Definition create_call (customer_data : ContactResponse) : M (gmap string string) :=
  print_str "Creating Voice call..." ;;;
  let* prompt := lift (formatted_prompt customer_data) in
  try_except
    (let* voice_response := requests_post VOICE_API_URL prompt in
     let call_id := voice_response !! "callId" in
     print [PStr "voice call id..."; POpt call_id] ;;;
     set_voice_call_id call_id ;;;
     set_transcription_customer_name (customer_name customer_data) ;;;
     print_str "Voice call created successfully" ;;;
     ret voice_response)
    (except_RequestException (fun e =>
       logger_error ("Voice call Error: " +:+ str_exn e) ;;;
       raise (HTTPException 500 ("Failed to create voice call: " +:+ str_exn e)))).

Definition transcript_url (call_id : option string) : string :=
  VOICE_API_URL +:+ "/" +:+ Py.str_of_opt call_id +:+ "/messages".

Definition fetch_transcript (call_id : option string) : M json :=
  print [PStr "transcript_url"; PStr (transcript_url call_id)] ;;;
  try_except
    (let* transcript_data := requests_get (transcript_url call_id) in
     print_str ("Transcript fetched for call " +:+ Py.str_of_opt call_id) ;;;
     ret transcript_data)
    (except_RequestException (fun e =>
       logger_error ("Error fetching transcript for call " +:+ Py.str_of_opt call_id
                     +:+ ": " +:+ str_exn e) ;;;
       raise (HTTPException 500 ("Failed to fetch transcript: " +:+ str_exn e)))).

(** [os.makedirs(dir, exist_ok=True)] *)
Definition makedirs (dir : string) : M unit :=
  fun env g =>
    match os_makedirs env dir with
    | Some e => (inl e, g, [EvMakedirs dir])
    | None => (inr tt, g, [EvMakedirs dir])
    end.

(** [with open(path, 'w') as f: json.dump(doc, f, indent=4)] *)
Definition write_json (path : string) (doc : json) : M unit :=
  fun env g =>
    match open_and_dump env path doc with
    | Some e => (inl e, g, [EvOpen path])
    | None => (inr tt, g, [EvOpen path; EvFileWritten path doc])
    end.

Definition transcript_file_name (customer_name : string) (now : datetime) : string :=
  "conversations" +:+ "/" +:+ customer_name +:+ "_" +:+ strftime_stamp now +:+ ".json".

Definition save_conversations (transcript : json) (customer_name : string) : M unit :=
  let transcript_dir := "conversations" in
  makedirs transcript_dir ;;;
  let* now := ask datetime_now in
  let transcript_file_name := transcript_file_name customer_name now in
  try_except
    (write_json transcript_file_name transcript ;;;
     print_str ("saved conversation to " +:+ transcript_file_name))
    (except_Exception (fun e =>
       print [PStr "Failed to save the conversation: "; PExn e])).

(** ** Telephony Bridge: [TwilioService.initiate_call] *)

Definition calls_create (twiml to status_callback : string) : M string :=
  fun env g => (twilio_calls_create env twiml to status_callback, g,
                [EvTwilioCreate twiml to status_callback]).

Definition twilio_initiate_call (join_url phone_number status_callback_url : string)
    : M string :=
  print_str ("Initiating Twilio call to " +:+ phone_number) ;;;
  try_except
    (let* sid := calls_create
                   ("<Response><Connect><Stream url=" +:+ Py.dq +:+ join_url +:+ Py.dq
                    +:+ "/></Connect></Response>")
                   phone_number status_callback_url in
     print_str ("Twilio call initiated with SID: " +:+ sid) ;;;
     set_twilio_call_id sid ;;;
     ret sid)
    (except_Exception (fun e =>
       logger_error ("Error initiating Twilio call: " +:+ str_exn e) ;;;
       raise (HTTPException 500 ("Failed to initiate call: " +:+ str_exn e)))).

(** ** The endpoints *)

(** What FastAPI sends for a handler's outcome: the returned value with
    status 200, an [HTTPException] with its own status code, any other
    exception as a plain 500. *)
Inductive http_response (A : Type) : Type :=
| Response200 (body : A)
| ResponseError (status_code : N) (detail : string).
Arguments Response200 {A} body.
Arguments ResponseError {A} status_code detail.

Definition status_of {A} (r : http_response A) : N :=
  match r with
  | Response200 _ => 200
  | ResponseError sc _ => sc
  end.

Definition respond {A} (r : exn + A) : http_response A :=
  match r with
  | inr a => Response200 a
  | inl (HTTPException sc d) => ResponseError sc d
  | inl _ => ResponseError 500 "Internal Server Error"
  end.

Definition serve {A} (handler : M A) (env : Env) (g : Globals)
    : http_response A * Globals * list event :=
  match handler env g with
  | (r, g', ev) => (respond r, g', ev)
  end.

(** [GET /fetch-contact] *)
Definition get_hubspot_contact (customer_name : string) : M ContactResponse :=
  if String.eqb customer_name EmptyString
  then raise (HTTPException 400 "customer_name is required")
  else
    let* contact_data := fetch_contact customer_name in
    let* dest := ask DESTINATION_PHONE_NUMBER in
    let* now := ask datetime_now in
    lift (create_response_object dest now contact_data).

(** [POST /initiate-call] *)
Definition initiate_call (request_customer_name : string) : M InitiateCallResponse :=
  print_str ("Received request to initiate call for customer: " +:+ request_customer_name) ;;;
  try_except
    (let* contact_data := fetch_contact request_customer_name in
     let* dest := ask DESTINATION_PHONE_NUMBER in
     let* now := ask datetime_now in
     let* customer_response := lift (create_response_object dest now contact_data) in
     let* voice_response := create_call customer_response in
     let join_url := voice_response !! "joinUrl" in
     let call_id := voice_response !! "callId" in
     match join_url with
     | None | Some EmptyString =>
         raise (HTTPException 500 "Failed to get joinUrl from Voice call")
     | Some join_url =>
         let status_callback_url := "https://1c2e-103-206-104-58.ngrok-free.app/call-status" in
         let* call_sid := twilio_initiate_call join_url (phone_number customer_response)
                            status_callback_url in
         ret {| icr_call_sid := call_sid;
                icr_join_url := join_url;
                icr_call_id := call_id;
                icr_message := "Call initiated successfully for " +:+ request_customer_name |}
     end)
    (except_HTTPException_raise_else (fun e =>
       logger_error ("Unexpected error initiating call: " +:+ str_exn e) ;;;
       raise (HTTPException 500 ("Failed to initiate call: " +:+ str_exn e)))).

(** The form fields of a call-status notification. *)
Record CallStatusUpdate : Type := {
  CallSid : string;
  CallStatus : string;
  AccountSid : option string;
  To : option string;
  From : option string;
  CallDuration : option string;
  Direction : option string
}.

(** [POST /call-status] *)
Definition handle_call_status (u : CallStatusUpdate) : M (list (string * string)) :=
  try_except
    (print_str ("Received call status update - CallSid: " +:+ CallSid u
                +:+ ", Status: " +:+ CallStatus u) ;;;
     (if String.eqb (CallStatus u) "completed" then
        print_str ("Call " +:+ CallSid u +:+ " completed successfully") ;;;
        let* g := get_globals in
        print [PStr "voice call call id..."; POpt (voice_call_id g)] ;;;
        let* call_transcript := fetch_transcript (voice_call_id g) in
        print [PStr "call transcript:"; PJson call_transcript] ;;;
        let* g' := get_globals in
        print [PStr "transcript_customer_name "; PStr (transcription_customer_name g')] ;;;
        let* results := lift (json_get call_transcript "results") in
        if truthy results
        then save_conversations call_transcript (transcription_customer_name g')
        else print_str "No conversation found and saved..."
      else if String.eqb (CallStatus u) "busy" then
        print_str ("Call " +:+ CallSid u +:+ " was busy")
      else if String.eqb (CallStatus u) "no-answer" then
        print_str ("Call " +:+ CallSid u +:+ " had no answer")
      else if String.eqb (CallStatus u) "failed" then
        logger_error ("Call " +:+ CallSid u +:+ " failed")
      else if String.eqb (CallStatus u) "answered" then
        print_str ("Call " +:+ CallSid u +:+ " was answered")
      else ret tt) ;;;
     ret [("message", "Status received"); ("status", "ok")])
    (except_Exception (fun e =>
       logger_error ("Error processing call status: " +:+ str_exn e) ;;;
       ret [("message", "Error processing status"); ("error", str_exn e)])).

(** The constructor of [TranscriptResponse]: each field must be a string.
    The transcript is whatever [fetch_transcript] returned. *)
Definition TranscriptResponse_init (call_id : string) (transcript : json)
    (message : string) : exn + TranscriptResponse :=
  match as_str transcript with
  | Some t => inr {| tr_call_id := call_id; tr_transcript := t; tr_message := message |}
  | None => inl (ValidationError "TranscriptResponse" ["transcript"])
  end.

(** [GET /fetch-transcript/{call_id}] *)
Definition get_call_transcript (call_id : string) : M TranscriptResponse :=
  print_str ("Fetching transcript for call_id: " +:+ call_id) ;;;
  try_except
    (let* transcript := fetch_transcript (Some call_id) in
     lift (TranscriptResponse_init call_id transcript
             ("Transcript fetched successfully for call " +:+ call_id)))
    (except_HTTPException_raise_else (fun e =>
       logger_error ("Unexpected error fetching transcript: " +:+ str_exn e) ;;;
       raise (HTTPException 500 ("Failed to fetch transcript: " +:+ str_exn e)))).

(** ** Observations on a run *)

Definition result_of {A} (r : (exn + A) * Globals * list event) : exn + A := r.1.1.
Definition globals_of {A} (r : (exn + A) * Globals * list event) : Globals := r.1.2.
Definition events_of {A} (r : (exn + A) * Globals * list event) : list event := r.2.

(** The files written during a run, with what was written. *)
Definition persisted (ev : list event) : list (string * json) :=
  omap (fun e => match e with EvFileWritten p d => Some (p, d) | _ => None end) ev.

(** The URLs fetched from the voice provider during a run. *)
Definition fetches (ev : list event) : list string :=
  omap (fun e => match e with EvGet url => Some url | _ => None end) ev.

(** Everything a run did to the outside, leaving out what it printed or
    logged. *)
Definition is_output (e : event) : bool :=
  match e with
  | EvPrint _ | EvLogError _ => true
  | _ => false
  end.

Definition effects (ev : list event) : list event :=
  List.filter (fun e => negb (is_output e)) ev.

(** The handler's own test for a transcript with something in it:
    [call_transcript.get("results")] is truthy. *)
Definition has_turns (t : json) : bool :=
  match json_get t "results" with
  | inr r => truthy r
  | inl _ => false
  end.

(** The (voice session id, customer name) pair held in the globals. *)
Definition current_session (g : Globals) : option string * string :=
  (voice_call_id g, transcription_customer_name g).

(** A sequence of [create_call]s, each in the environment of its own
    request, threading the globals. *)
Fixpoint run_sessions (calls : list (Env * ContactResponse)) (g : Globals) : Globals :=
  match calls with
  | [] => g
  | (env, c) :: rest => run_sessions rest (globals_of (create_call c env g))
  end.

(** The session a [create_call] establishes when the provider accepts it:
    the returned [callId] and the customer's name. *)
Definition session_of (call : Env * ContactResponse) : option (option string * string) :=
  match formatted_prompt call.2 with
  | inr prompt =>
      match voice_post call.1 VOICE_API_URL prompt with
      | inr voice_response => Some (voice_response !! "callId", customer_name call.2)
      | inl _ => None
      end
  | inl _ => None
  end.

(** The template, cut into literal characters and fields. *)
Definition prompt_segments : list seg := scan Text SYSTEM_PROMPT.

(** The text that takes a segment's place in the rendered script. *)
Definition seg_text (kwargs : list (string * string)) (sg : seg) : string :=
  match render_seg kwargs sg with
  | inr t => t
  | inl _ => EmptyString
  end.

Fixpoint fill (kwargs : list (string * string)) (segs : list seg) : string :=
  match segs with
  | [] => EmptyString
  | sg :: rest => seg_text kwargs sg +:+ fill kwargs rest
  end.

Definition resolves (kwargs : list (string * string)) (sg : seg) : bool :=
  match render_seg kwargs sg with
  | inr _ => true
  | inl _ => false
  end.

Definition is_brace (c : ascii) : bool := is_lbrace c || is_rbrace c.

Definition brace_free (s : string) : bool :=
  forallb (fun c => negb (is_brace c)) (list_ascii_of_string s).

(** A segment the template may have: a literal character that is no
    brace, or one of the five fields the script builder supplies. *)
Definition template_seg_ok (sg : seg) : bool :=
  match sg with
  | Lit c => negb (is_brace c)
  | Field n =>
      existsb (String.eqb n)
        ["agent_name"; "bank_name"; "customer_name"; "main_message";
         "preferred_callback_time"]
  | Malformed _ => false
  end.

(** Placeholder syntax in a text: an opening brace, a non-empty name
    without braces, a closing brace. *)
Definition has_placeholder (text : string) : Prop :=
  exists name : string,
    name <> EmptyString /\ brace_free name = true /\
    Py.contains ("{" +:+ name +:+ "}") text.

(** The value of a property that is present as a string, [dflt] when the
    key is missing. *)
Definition field_or (contact_data : gmap string (option string))
    (key dflt : string) : string :=
  match contact_data !! key with
  | Some (Some s) => s
  | _ => dflt
  end.

(** ** Sample data *)

Module Demo.

Definition now : datetime :=
  {| year := 2025; month := 6; day := 22; hour := 9; minute := 5; second := 7;
     microsecond := 120034 |}.

Definition turn : json :=
  JObj [("role", JStr "MESSAGE_ROLE_AGENT"); ("text", JStr "Hello, may I speak with Asha Rao?")].

Definition transcript : json :=
  JObj [("next", JNull); ("previous", JNull); ("results", JArr [turn]); ("total", JNum 1)].

Definition empty_transcript : json :=
  JObj [("next", JNull); ("previous", JNull); ("results", JArr []); ("total", JNum 0)].

Definition asha : gmap string (option string) :=
  {[ "customer_name" := Some "Asha Rao";
     "outstanding_amount" := Some "45000";
     "loan_type" := Some "personal loan" ]}.

(** A record whose bank name is present and empty. *)
Definition blank_bank : gmap string (option string) :=
  {[ "customer_name" := Some "Asha Rao"; "bank_name" := Some EmptyString ]}.

(** A record as the CRM returns it when a requested property is unset. *)
Definition null_name : gmap string (option string) :=
  {[ "customer_name" := None; "loan_type" := Some "personal loan" ]}.

Definition voice_response : gmap string string :=
  {[ "callId" := "vc-1"; "joinUrl" := "wss://voice.example/join/vc-1" ]}.

(** Every collaborator answers; the provider knows the session [vc-1]. *)
Definition env : Env :=
  {| DESTINATION_PHONE_NUMBER := "+918919025218";
     datetime_now := now;
     hubspot_do_search := fun name =>
       if String.eqb name "Asha Rao" then inr [asha] else inr [];
     voice_post := fun _ _ => inr voice_response;
     voice_get := fun url =>
       if String.eqb url (transcript_url (Some "vc-1")) then inr transcript
       else inl (RequestException "404 Client Error: Not Found for url");
     twilio_calls_create := fun _ _ _ => inr "CA0001";
     os_makedirs := fun _ => None;
     open_and_dump := fun _ _ => None |}.

(** The same, with a storage directory that cannot be created. *)
Definition env_no_dir : Env :=
  {| DESTINATION_PHONE_NUMBER := DESTINATION_PHONE_NUMBER env;
     datetime_now := datetime_now env;
     hubspot_do_search := hubspot_do_search env;
     voice_post := voice_post env;
     voice_get := voice_get env;
     twilio_calls_create := twilio_calls_create env;
     os_makedirs := fun _ =>
       Some (Exception "FileExistsError" "[Errno 17] File exists: 'conversations'");
     open_and_dump := open_and_dump env |}.

(** The same, with a second customer and a second session. *)
Definition env2 : Env :=
  {| DESTINATION_PHONE_NUMBER := DESTINATION_PHONE_NUMBER env;
     datetime_now := datetime_now env;
     hubspot_do_search := hubspot_do_search env;
     voice_post := fun _ _ => inr {[ "callId" := "vc-2" ]};
     voice_get := voice_get env;
     twilio_calls_create := twilio_calls_create env;
     os_makedirs := os_makedirs env;
     open_and_dump := open_and_dump env |}.

Definition globals : Globals :=
  {| voice_call_id := Some "vc-1";
     twilio_call_id := "CA0001";
     transcription_customer_name := "Asha Rao" |}.

Definition update (sid status : string) : CallStatusUpdate :=
  {| CallSid := sid; CallStatus := status; AccountSid := None; To := None;
     From := None; CallDuration := None; Direction := None |}.

Definition customer (name : string) : ContactResponse :=
  {| bank_name := "Example Bank"; customer_name := name;
     loan_type := "personal loan"; outstanding_amount := "45000";
     missed_emi_count := "2"; emi_amount := "5000"; due_date := "2025-06-01";
     proposed_months := "6"; amount := "45000"; months := "6";
     phone_number := "+918919025218"; call_status := "pending";
     number_of_call_attempts := "1"; call_lifted_time := "10:00";
     secure_payment_link := "https://example.com/payment";
     preferred_callback_time := "evening";
     main_message := "Hello " +:+ name +:+ ", this is Example Bank.";
     dpd_days := "21"; date := "2025-06-22"; agent_name := "Yaswanth" |}.

End Demo.

(** ** Start-up: the module-level configuration check *)

Section ModuleInit.

(** [os.getenv], after [load_dotenv()]. *)
Variable getenv : string -> option string.

Definition REQUIRED_NAMES : list string :=
  ["TWILIO_ACCOUNT_SID"; "TWILIO_AUTH_TOKEN"; "TWILIO_PHONE_NUMBER";
   "VOICE_API_KEY"; "HUBSPOT_ACCESS_TOKEN"].

Definition required_env_vars : list (string * option string) :=
  [ ("TWILIO_ACCOUNT_SID", getenv "TWILIO_ACCOUNT_SID");
    ("TWILIO_AUTH_TOKEN", getenv "TWILIO_AUTH_TOKEN");
    ("TWILIO_PHONE_NUMBER", getenv "TWILIO_PHONE_NUMBER");
    ("VOICE_API_KEY", getenv "VOICE_API_KEY");
    ("HUBSPOT_ACCESS_TOKEN", getenv "HUBSPOT_ACCESS_TOKEN") ].

(** [not value] for a value that is a string or [None]. *)
Definition not_value (value : option string) : bool :=
  match value with
  | None => true
  | Some s => String.eqb s EmptyString
  end.

Definition missing_vars : list string :=
  map fst (List.filter (fun item => not_value item.2) required_env_vars).

(** [os.getenv("DESTINATION_PHONE_NUMBER", "+918919025218")] *)
Definition destination_phone_number : string :=
  default "+918919025218" (getenv "DESTINATION_PHONE_NUMBER").

(** Importing the module: the destination number it ends up with, or the
    [ValueError] it raises. *)
Definition module_init : exn + string :=
  match missing_vars with
  | [] => inr destination_phone_number
  | _ =>
      inl (Exception "ValueError"
             ("Missing required environment variables: "
              +:+ String.concat ", " missing_vars))
  end.

End ModuleInit.

(** ** Telephony Bridge: [TwilioService.end_call] and the end-call endpoints *)

Section EndCall.

(** [client.calls(call_sid).update(status="completed")]: the provider
    takes the request, or the client raises. *)
Variable twilio_calls_update : string -> exn + unit.

Definition end_call (call_sid : string) : M unit :=
  try_except
    (lift (twilio_calls_update call_sid) ;;;
     print_str ("Twilio call " +:+ call_sid +:+ " terminated successfully"))
    (except_Exception (fun e =>
       logger_error ("Error terminating Twilio call " +:+ call_sid +:+ ": " +:+ str_exn e) ;;;
       raise (HTTPException 500 ("Failed to terminate call: " +:+ str_exn e)))).

(** [POST /end-call/{call_sid}] *)
Definition end_call_specific (call_sid : string) : M (list (string * string)) :=
  print_str ("Received request to end call: " +:+ call_sid) ;;;
  try_except
    (end_call call_sid ;;;
     ret [("message", "Call " +:+ call_sid +:+ " ended successfully")])
    (except_Exception (fun e =>
       logger_error ("Error ending call " +:+ call_sid +:+ ": " +:+ str_exn e) ;;;
       ret [("message", "Error ending call: " +:+ str_exn e); ("status", "error")])).

End EndCall.

(** [POST /end-call] *)
Definition end_call_generic : M (list (string * string)) :=
  print_str "Received generic end-call request" ;;;
  ret [("message", "End call request received"); ("status", "ok")].

(** ** More observations *)

(** The names searched in the CRM, the prompts posted to the voice
    provider and the calls placed, during a run. *)
Definition searches (ev : list event) : list string :=
  omap (fun e => match e with EvSearch n => Some n | _ => None end) ev.

Definition posts (ev : list event) : list (string * string) :=
  omap (fun e => match e with EvPost u p => Some (u, p) | _ => None end) ev.

Definition twilio_calls (ev : list event) : list (string * string * string) :=
  omap (fun e => match e with EvTwilioCreate t n c => Some (t, n, c) | _ => None end) ev.

(** The properties [create_response_object] reads. *)
Definition READ_KEYS : list string :=
  ["customer_name"; "phone_number"; "loan_type"; "outstanding_amount";
   "missed_emi_count"; "emi_amount"; "due_date"; "dpd_days"; "bank_name";
   "proposed_months"; "amount"; "months"; "call_status";
   "number_of_call_attempts"; "call_lifted_time"; "secure_payment_link";
   "preferred_callback_time"].

(** What [datetime.now()] can be. *)
Definition datetime_ok (t : datetime) : Prop :=
  (1000 <= year t < 10000)%N /\ (1 <= month t <= 12)%N /\ (1 <= day t <= 31)%N /\
  (hour t < 24)%N /\ (minute t < 60)%N /\ (second t < 60)%N.

(** Reading a decimal numeral back. *)
Definition digit_value (c : ascii) : N := (N_of_ascii c - 48)%N.

Fixpoint read_decimal (acc : N) (s : string) : N :=
  match s with
  | EmptyString => acc
  | String c r => read_decimal (10 * acc + digit_value c)%N r
  end.

(** A padded numeral has the asked width and reads back as the number. *)
Definition zpad_reads_back (width : nat) (n : N) : bool :=
  Nat.eqb (String.length (Py.zpad width n)) width
  && N.eqb (read_decimal 0 (Py.zpad width n)) n.

(** The numbers below [k]. *)
Definition below (k : nat) : list N := map N.of_nat (seq 0 k).

(** The TwiML that bridges a call to [join_url], and the status callback
    [initiate_call] registers. *)
Definition twiml_for (join_url : string) : string :=
  "<Response><Connect><Stream url=" +:+ Py.dq +:+ join_url +:+ Py.dq
  +:+ "/></Connect></Response>".

Definition STATUS_CALLBACK_URL : string :=
  "https://1c2e-103-206-104-58.ngrok-free.app/call-status".

Module Demo2.

Definition getenv_ok (name : string) : option string :=
  if String.eqb name "DESTINATION_PHONE_NUMBER" then None else Some "secret".

Definition getenv_partial (name : string) : option string :=
  if String.eqb name "VOICE_API_KEY" then None
  else if String.eqb name "TWILIO_AUTH_TOKEN" then Some EmptyString
  else Some "secret".

(** The telephony provider refuses the call. *)
Definition env_no_twilio : Env :=
  {| DESTINATION_PHONE_NUMBER := DESTINATION_PHONE_NUMBER Demo.env;
     datetime_now := datetime_now Demo.env;
     hubspot_do_search := hubspot_do_search Demo.env;
     voice_post := voice_post Demo.env;
     voice_get := voice_get Demo.env;
     twilio_calls_create := fun _ _ _ =>
       inl (Exception "TwilioRestException" "HTTP 400 error: Unable to create record");
     os_makedirs := os_makedirs Demo.env;
     open_and_dump := open_and_dump Demo.env |}.

(** The disk refuses the file. *)
Definition env_no_write : Env :=
  {| DESTINATION_PHONE_NUMBER := DESTINATION_PHONE_NUMBER Demo.env;
     datetime_now := datetime_now Demo.env;
     hubspot_do_search := hubspot_do_search Demo.env;
     voice_post := voice_post Demo.env;
     voice_get := voice_get Demo.env;
     twilio_calls_create := twilio_calls_create Demo.env;
     os_makedirs := os_makedirs Demo.env;
     open_and_dump := fun _ _ =>
       Some (Exception "OSError" "[Errno 28] No space left on device") |}.

Definition later : datetime :=
  {| year := 2025; month := 6; day := 22; hour := 9; minute := 5; second := 7;
     microsecond := 999999 |}.

Definition update_ok (sid : string) : exn + unit := inr tt.

Definition update_gone (sid : string) : exn + unit :=
  inl (Exception "TwilioRestException" "HTTP 404 error: call not found").

End Demo2.

(** ** The call-status endpoint, from the request's form

    The handler's parameters are declared [Form(...)] for [CallSid] and
    [CallStatus] and [Form(None)] for the others. FastAPI reads them from
    the form of the request before it calls the handler: a form field that
    is sent empty counts as not sent, a required field that is not sent is
    answered 422 and the handler does not run. The 422 body is FastAPI's
    list of validation errors, given here by the reason phrase. *)

Definition form_field (form : gmap string string) (name : string) : option string :=
  match form !! name with
  | Some EmptyString => None
  | v => v
  end.

Definition update_of_form (form : gmap string string) (sid status : string)
    : CallStatusUpdate :=
  {| CallSid := sid;
     CallStatus := status;
     AccountSid := form_field form "AccountSid";
     To := form_field form "To";
     From := form_field form "From";
     CallDuration := form_field form "CallDuration";
     Direction := form_field form "Direction" |}.

Definition call_status_endpoint (form : gmap string string) (env : Env) (g : Globals)
    : http_response (list (string * string)) * Globals * list event :=
  match form_field form "CallSid", form_field form "CallStatus" with
  | Some sid, Some status =>
      serve (handle_call_status (update_of_form form sid status)) env g
  | _, _ => (ResponseError 422 "Unprocessable Entity", g, [])
  end.

(** The two bodies the handler returns. *)
Definition STATUS_RECEIVED : list (string * string) :=
  [("message", "Status received"); ("status", "ok")].

Definition error_body (e : exn) : list (string * string) :=
  [("message", "Error processing status"); ("error", str_exn e)].

(** The processing inside the handler's [try], up to its [return]. *)
Definition process_call_status (u : CallStatusUpdate) : M unit :=
  print_str ("Received call status update - CallSid: " +:+ CallSid u
             +:+ ", Status: " +:+ CallStatus u) ;;;
  (if String.eqb (CallStatus u) "completed" then
     print_str ("Call " +:+ CallSid u +:+ " completed successfully") ;;;
     let* g := get_globals in
     print [PStr "voice call call id..."; POpt (voice_call_id g)] ;;;
     let* call_transcript := fetch_transcript (voice_call_id g) in
     print [PStr "call transcript:"; PJson call_transcript] ;;;
     let* g' := get_globals in
     print [PStr "transcript_customer_name "; PStr (transcription_customer_name g')] ;;;
     let* results := lift (json_get call_transcript "results") in
     if truthy results
     then save_conversations call_transcript (transcription_customer_name g')
     else print_str "No conversation found and saved..."
   else if String.eqb (CallStatus u) "busy" then
     print_str ("Call " +:+ CallSid u +:+ " was busy")
   else if String.eqb (CallStatus u) "no-answer" then
     print_str ("Call " +:+ CallSid u +:+ " had no answer")
   else if String.eqb (CallStatus u) "failed" then
     logger_error ("Call " +:+ CallSid u +:+ " failed")
   else if String.eqb (CallStatus u) "answered" then
     print_str ("Call " +:+ CallSid u +:+ " was answered")
   else ret tt).

(** The handler's [try] and [except Exception] around a processing [m]:
    the acknowledgement when [m] returns, the error body when it raises. *)
Definition guarded (m : M unit) : M (list (string * string)) :=
  try_except
    (m ;;; ret STATUS_RECEIVED)
    (except_Exception (fun e =>
       logger_error ("Error processing call status: " +:+ str_exn e) ;;;
       ret (error_body e))).

Fixpoint count_slash (s : string) : nat :=
  match s with
  | EmptyString => O
  | String c r => if Ascii.eqb c "/"%char then S (count_slash r) else count_slash r
  end.

Module Demo3.

(** A working disk on which [conversations] is an empty directory: a file
    directly inside it can be written, a path through a directory that
    does not exist cannot. *)
Definition flat_disk : Env :=
  {| DESTINATION_PHONE_NUMBER := DESTINATION_PHONE_NUMBER Demo.env;
     datetime_now := datetime_now Demo.env;
     hubspot_do_search := hubspot_do_search Demo.env;
     voice_post := voice_post Demo.env;
     voice_get := voice_get Demo.env;
     twilio_calls_create := twilio_calls_create Demo.env;
     os_makedirs := fun _ => None;
     open_and_dump := fun path _ =>
       if Nat.eqb (count_slash path) 1 then None
       else Some (Exception "FileNotFoundError" "[Errno 2] No such file or directory") |}.

(** The session of a customer whose name has a slash in it. *)
Definition globals : Globals :=
  {| voice_call_id := Some "vc-1";
     twilio_call_id := "CA0001";
     transcription_customer_name := "a/b" |}.

Definition form_completed : gmap string string :=
  {[ "CallSid" := "CA0001"; "CallStatus" := "completed"; "Direction" := "outbound-api" ]}.

(** A notification without its status. *)
Definition form_no_status : gmap string string :=
  {[ "CallSid" := "CA0001" ]}.

End Demo3.

(** ** Proof support *)

Ltac unfold_run :=
  unfold result_of, globals_of, events_of, serve,
    handle_call_status, get_call_transcript, fetch_transcript, save_conversations,
    fetch_contact, makedirs, write_json, requests_get, requests_post, do_search,
    try_except, bind, ret, raise, lift, ask, emit, print, print_str, logger_error,
    get_globals, except_Exception, except_RequestException,
    except_HTTPException_raise_else in *.

Lemma has_turns_array (fields : list (string * json)) (turn : json) (more : list json) :
  assoc "results" fields = Some (JArr (turn :: more)) ->
  has_turns (JObj fields) = true.
Proof. intros H. unfold has_turns. simpl. rewrite H. reflexivity. Qed.

Lemma has_turns_empty_array (fields : list (string * json)) :
  assoc "results" fields = Some (JArr []) ->
  has_turns (JObj fields) = false.
Proof. intros H. unfold has_turns. simpl. rewrite H. reflexivity. Qed.

Lemma has_turns_no_results (fields : list (string * json)) :
  assoc "results" fields = None ->
  has_turns (JObj fields) = false.
Proof. intros H. unfold has_turns. simpl. rewrite H. reflexivity. Qed.

(** ** The call-status webhook *)

Section CallStatusWebhook.

Variable env : Env.
Variable g : Globals.

(** Any status but [completed] touches neither the voice provider nor the
    disk. *)
Lemma other_status_no_effects (u : CallStatusUpdate) :
  CallStatus u <> "completed" ->
  effects (events_of (handle_call_status u env g)) = [].
Proof.
  intros Hne. unfold_run.
  destruct (String.eqb_spec (CallStatus u) "completed") as [E|_]; [contradiction|].
  repeat match goal with
         | |- context [String.eqb ?a ?b] => destruct (String.eqb a b)
         end; reflexivity.
Qed.

(** A completed call: what the run does, for each answer of the
    collaborators. *)
Lemma completed_effects (u : CallStatusUpdate) :
  CallStatus u = "completed" ->
  effects (events_of (handle_call_status u env g)) =
    let url := transcript_url (voice_call_id g) in
    let path := transcript_file_name (transcription_customer_name g) (datetime_now env) in
    EvGet url ::
    match voice_get env url with
    | inr t =>
        if has_turns t then
          EvMakedirs "conversations" ::
          match os_makedirs env "conversations" with
          | Some _ => []
          | None =>
              EvOpen path ::
              match open_and_dump env path t with
              | Some _ => []
              | None => [EvFileWritten path t]
              end
          end
        else []
    | inl _ => []
    end.
Proof.
  intros Hc. unfold_run. rewrite Hc. simpl.
  destruct (voice_get env _) as [e|t]; simpl.
  - destruct e; reflexivity.
  - unfold has_turns. destruct (json_get t "results") as [e|r]; simpl; [reflexivity|].
    destruct (truthy r); simpl; [|reflexivity].
    destruct (os_makedirs env _); simpl; [reflexivity|].
    unfold transcript_file_name.
    destruct (open_and_dump env _ t); reflexivity.
Qed.

Lemma persisted_effects (ev : list event) : persisted (effects ev) = persisted ev.
Proof.
  induction ev as [|e ev IH]; [reflexivity|].
  destruct e; simpl; try rewrite IH; reflexivity.
Qed.

Lemma fetches_effects (ev : list event) : fetches (effects ev) = fetches ev.
Proof.
  induction ev as [|e ev IH]; [reflexivity|].
  destruct e; simpl; try rewrite IH; reflexivity.
Qed.

(** The handler always returns one of its two bodies, and leaves the
    globals alone. *)
Lemma handle_call_status_returns (u : CallStatusUpdate) :
  exists body,
    result_of (handle_call_status u env g) = inr body /\
    globals_of (handle_call_status u env g) = g /\
    (body = [("message", "Status received"); ("status", "ok")] \/
     exists err : string, body = [("message", "Error processing status"); ("error", err)]).
Proof.
  unfold_run.
  destruct (String.eqb (CallStatus u) "completed").
  - simpl. destruct (voice_get env _) as [e|t]; simpl.
    + destruct e; simpl; eexists; (split; [reflexivity|split; [reflexivity|right; eexists; reflexivity]]).
    + destruct (json_get t "results") as [e|r]; simpl.
      { eexists; split; [reflexivity|split; [reflexivity|right; eexists; reflexivity]]. }
      destruct (truthy r); simpl.
      * destruct (os_makedirs env _); simpl.
        { eexists; split; [reflexivity|split; [reflexivity|right; eexists; reflexivity]]. }
        destruct (open_and_dump env _ t); simpl;
          eexists; (split; [reflexivity|split; [reflexivity|left; reflexivity]]).
      * eexists; split; [reflexivity|split; [reflexivity|left; reflexivity]].
  - repeat match goal with
           | |- context [String.eqb ?a ?b] => destruct (String.eqb a b)
           end; simpl;
      eexists; (split; [reflexivity|split; [reflexivity|left; reflexivity]]).
Qed.

End CallStatusWebhook.


(** C1. The webhook handler dispatches on the status. A [completed] event
    whose fetched transcript has at least one turn persists exactly one
    file when the storage directory can be created and the file written,
    and none when either fails; a [completed] event whose transcript is
    empty persists none; any other status, known or not, fetches no
    transcript and persists no file. *)
Theorem status_dispatch (env : Env) (g : Globals) (u : CallStatusUpdate) :
  let ev := events_of (handle_call_status u env g) in
  let path := transcript_file_name (transcription_customer_name g) (datetime_now env) in
  (CallStatus u = "completed" ->
   forall t : json,
     voice_get env (transcript_url (voice_call_id g)) = inr t ->
     (has_turns t = true ->
      (os_makedirs env "conversations" = None ->
       open_and_dump env path t = None ->
       persisted ev = [(path, t)] /\ length (fetches ev) = 1%nat) /\
      (os_makedirs env "conversations" <> None \/ open_and_dump env path t <> None ->
       persisted ev = [])) /\
     (has_turns t = false -> persisted ev = [])) /\
  (CallStatus u <> "completed" -> fetches ev = [] /\ persisted ev = []).
Proof.
  intros ev path. subst ev. split.
  - intros Hc t Ht.
    rewrite <- persisted_effects, <- fetches_effects.
    rewrite (completed_effects env g u Hc). cbv zeta. rewrite Ht.
    split.
    + intros Hturns. rewrite Hturns. fold path. split.
      * intros Hdir Hw. rewrite Hdir, Hw. split; reflexivity.
      * intros Hfail.
        destruct (os_makedirs env "conversations"); [reflexivity|].
        destruct (open_and_dump env path t); [reflexivity|].
        destruct Hfail as [H|H]; exfalso; exact (H eq_refl).
    + intros Hturns. rewrite Hturns. reflexivity.
  - intros Hne.
    rewrite <- persisted_effects, <- fetches_effects.
    rewrite (other_status_no_effects env g u Hne). split; reflexivity.
Qed.

Lemma status_dispatch_witness :
  persisted (events_of (handle_call_status (Demo.update "CA1" "completed") Demo.env Demo.globals))
    = [("conversations/Asha Rao_20250622_090507.json", Demo.transcript)] /\
  fetches (events_of (handle_call_status (Demo.update "CA1" "busy") Demo.env Demo.globals)) = [].
Proof.
  split.
  - destruct (status_dispatch Demo.env Demo.globals (Demo.update "CA1" "completed"))
      as [Hcompleted _].
    destruct (Hcompleted eq_refl Demo.transcript eq_refl) as [Hturns _].
    destruct (Hturns eq_refl) as [Hwritten _].
    exact (proj1 (Hwritten eq_refl eq_refl)).
  - apply (proj2 (status_dispatch Demo.env Demo.globals (Demo.update "CA1" "busy"))).
    discriminate.
Defined.

(** C1 fails as stated: on a working disk, a [completed] event whose
    transcript has a turn persists no file when the stored customer name
    has a slash in it, the file name then pointing into a directory that
    does not exist. *)
Lemma status_dispatch_unwritable_counterexample :
  CallStatus (Demo.update "CA0001" "completed") = "completed" /\
  voice_get Demo3.flat_disk (transcript_url (voice_call_id Demo3.globals))
    = inr Demo.transcript /\
  has_turns Demo.transcript = true /\
  os_makedirs Demo3.flat_disk "conversations" = None /\
  persisted (events_of (handle_call_status (Demo.update "CA0001" "completed")
                          Demo3.flat_disk Demo3.globals)) = [] /\
  result_of (handle_call_status (Demo.update "CA0001" "completed")
               Demo3.flat_disk Demo3.globals)
    = inr [("message", "Status received"); ("status", "ok")].
Proof. vm_compute. repeat split. Qed.

(** An upstream failure during the transcript fetch is reported in the
    body. *)
Lemma call_status_reports_fetch_failure (env : Env) (g : Globals)
    (u : CallStatusUpdate) (msg : string) :
  CallStatus u = "completed" ->
  voice_get env (transcript_url (voice_call_id g)) = inl (RequestException msg) ->
  result_of (handle_call_status u env g) =
    inr [("message", "Error processing status");
         ("error", str_exn (HTTPException 500 ("Failed to fetch transcript: " +:+ msg)))].
Proof.
  intros Hc Hget. unfold_run. rewrite Hc. simpl. rewrite Hget. reflexivity.
Qed.

(** ** The webhook's guard *)

Lemma bind_assoc_run {A B C : Type} (m : M A) (k : A -> M B) (h : B -> M C)
    (env : Env) (g : Globals) :
  bind (bind m k) h env g = bind m (fun a => bind (k a) h) env g.
Proof.
  unfold bind.
  destruct (m env g) as [[[e|a] g1] ev1]; [reflexivity|].
  destruct (k a env g1) as [[[e|b] g2] ev2]; [reflexivity|].
  destruct (h b env g2) as [[r g3] ev3]. rewrite app_assoc. reflexivity.
Qed.

(** The handler is its processing under the guard. *)
Lemma handle_call_status_guarded (u : CallStatusUpdate) (env : Env) (g : Globals) :
  handle_call_status u env g = guarded (process_call_status u) env g.
Proof.
  unfold handle_call_status, guarded, process_call_status, try_except, STATUS_RECEIVED,
    except_Exception, error_body.
  rewrite bind_assoc_run. reflexivity.
Qed.

(** Whatever is put under the guard, it returns: the acknowledgement when
    the processing returns, and when the processing raises, the error body
    with the text of that exception, which is also logged. *)
Lemma guarded_reports (m : M unit) (env : Env) (g : Globals) :
  result_of (guarded m env g) =
    match result_of (m env g) with
    | inr _ => inr STATUS_RECEIVED
    | inl e => inr (error_body e)
    end /\
  (forall e, result_of (m env g) = inl e ->
     In (EvLogError ("Error processing call status: " +:+ str_exn e))
        (events_of (guarded m env g))).
Proof.
  unfold guarded, try_except, bind, ret, except_Exception, logger_error, emit,
    result_of, events_of.
  destruct (m env g) as [[[e|x] g1] ev1]; simpl.
  - split; [reflexivity|]. intros e' [= <-]. apply in_or_app. right. left. reflexivity.
  - split; [reflexivity|]. intros e' [=].
Qed.

Lemma serve_result {A : Type} (h : M A) (env : Env) (g : Globals) :
  (serve h env g).1.1 = respond (result_of (h env g)) /\
  (serve h env g).2 = events_of (h env g).
Proof.
  unfold serve, result_of, events_of. destruct (h env g) as [[r g'] ev].
  split; reflexivity.
Qed.

(** C2. A request to the call-status endpoint that lacks [CallSid] or
    [CallStatus] is answered 422 and the handler does not run. Every
    request that carries both is answered 200: with the acknowledgement
    when the processing returns, and when the processing raises, whatever
    the exception, with the error body carrying the text of that exception,
    which is logged; a failed transcript fetch in particular. No exception
    leaves the handler, whatever processing is put inside its guard. *)
Theorem call_status_endpoint_responses (env : Env) (g : Globals)
    (form : gmap string string) :
  let r := call_status_endpoint form env g in
  (form_field form "CallSid" = None \/ form_field form "CallStatus" = None ->
   r = (ResponseError 422 "Unprocessable Entity", g, [])) /\
  (forall sid status,
     form_field form "CallSid" = Some sid ->
     form_field form "CallStatus" = Some status ->
     let u := update_of_form form sid status in
     status_of r.1.1 = 200%N /\
     (forall x, result_of (process_call_status u env g) = inr x ->
        r.1.1 = Response200 STATUS_RECEIVED) /\
     (forall e, result_of (process_call_status u env g) = inl e ->
        r.1.1 = Response200 (error_body e) /\
        In (EvLogError ("Error processing call status: " +:+ str_exn e)) r.2) /\
     (forall msg,
        status = "completed" ->
        voice_get env (transcript_url (voice_call_id g)) = inl (RequestException msg) ->
        r.1.1 = Response200
                  (error_body (HTTPException 500 ("Failed to fetch transcript: " +:+ msg))))) /\
  (forall (m : M unit) (e : exn),
     result_of (m env g) = inl e ->
     result_of (guarded m env g) = inr (error_body e)).
Proof.
  intros r. subst r. split; [|split].
  - unfold call_status_endpoint. intros [H|H]; rewrite H; [reflexivity|].
    destruct (form_field form "CallSid"); reflexivity.
  - intros sid status Hsid Hstatus u.
    unfold call_status_endpoint. rewrite Hsid, Hstatus. fold u.
    destruct (serve_result (handle_call_status u) env g) as [Hres Hev].
    rewrite Hres, Hev, (handle_call_status_guarded u env g).
    destruct (guarded_reports (process_call_status u) env g) as [Hg Hlog].
    rewrite Hg.
    split; [destruct (result_of (process_call_status u env g)); reflexivity|].
    split; [intros x Hx; rewrite Hx; reflexivity|].
    split.
    + intros e He. rewrite He. split; [reflexivity|exact (Hlog e He)].
    + intros msg -> Hget. rewrite <- Hg, <- (handle_call_status_guarded u env g).
      rewrite (call_status_reports_fetch_failure env g u msg eq_refl Hget). reflexivity.
  - intros m e He. rewrite (proj1 (guarded_reports m env g)), He. reflexivity.
Qed.

Lemma call_status_endpoint_responses_witness :
  status_of (call_status_endpoint Demo3.form_completed Demo.env Demo.globals).1.1 = 200%N.
Proof.
  destruct (call_status_endpoint_responses Demo.env Demo.globals Demo3.form_completed)
    as (_ & Hpresent & _).
  exact (proj1 (Hpresent "CA0001" "completed" eq_refl eq_refl)).
Defined.

(** C2 fails as stated: a request to the endpoint without [CallStatus] is
    answered 422, not 200. *)
Lemma call_status_missing_field_counterexample :
  form_field Demo3.form_no_status "CallStatus" = None /\
  status_of (call_status_endpoint Demo3.form_no_status Demo.env Demo.globals).1.1 = 422%N /\
  status_of (call_status_endpoint Demo3.form_no_status Demo.env Demo.globals).1.1 <> 200%N.
Proof. vm_compute. repeat split. discriminate. Qed.

(** ** What the [completed] branch reads *)

Lemma completed_fetches (env : Env) (g : Globals) (u : CallStatusUpdate) :
  CallStatus u = "completed" ->
  fetches (events_of (handle_call_status u env g)) = [transcript_url (voice_call_id g)].
Proof.
  intros Hc. rewrite <- fetches_effects, (completed_effects env g u Hc). cbv zeta.
  destruct (voice_get env _) as [e|t]; [reflexivity|].
  destruct (has_turns t); [|reflexivity].
  destruct (os_makedirs env _); [reflexivity|].
  destruct (open_and_dump env _ t); reflexivity.
Qed.

Lemma completed_persisted_path (env : Env) (g : Globals) (u : CallStatusUpdate) :
  CallStatus u = "completed" ->
  forall p d, In (p, d) (persisted (events_of (handle_call_status u env g))) ->
    p = transcript_file_name (transcription_customer_name g) (datetime_now env).
Proof.
  intros Hc p d. rewrite <- persisted_effects, (completed_effects env g u Hc). cbv zeta.
  destruct (voice_get env _) as [e|t]; [intros []|].
  destruct (has_turns t); [|intros []].
  destruct (os_makedirs env _); [intros []|].
  destruct (open_and_dump env _ t); [intros []|].
  simpl. intros [E|[]]. congruence.
Qed.

(** C10. For fixed globals and collaborators, two [completed] events that
    differ in their [CallSid] fetch the same transcript, the one of the
    stored voice call id, write the same files, under the stored customer
    name, and get the same answer. *)
Theorem call_sid_irrelevant (env : Env) (g : Globals) (u1 u2 : CallStatusUpdate) :
  CallStatus u1 = "completed" ->
  CallStatus u2 = "completed" ->
  let r1 := handle_call_status u1 env g in
  let r2 := handle_call_status u2 env g in
  fetches (events_of r1) = [transcript_url (voice_call_id g)] /\
  fetches (events_of r2) = [transcript_url (voice_call_id g)] /\
  effects (events_of r1) = effects (events_of r2) /\
  (forall p d, In (p, d) (persisted (events_of r1)) ->
     p = transcript_file_name (transcription_customer_name g) (datetime_now env)) /\
  result_of r1 = result_of r2 /\
  globals_of r1 = globals_of r2.
Proof.
  intros H1 H2 r1 r2. subst r1 r2.
  pose proof (completed_effects env g u1 H1) as E1.
  pose proof (completed_effects env g u2 H2) as E2.
  cbv zeta in E1, E2.
  repeat split.
  - exact (completed_fetches env g u1 H1).
  - exact (completed_fetches env g u2 H2).
  - rewrite E1, E2. reflexivity.
  - exact (completed_persisted_path env g u1 H1).
  - unfold_run. rewrite H1, H2. simpl.
    destruct (voice_get env _) as [e|t]; simpl; [destruct e; reflexivity|].
    destruct (json_get t "results") as [e|r]; simpl; [reflexivity|].
    destruct (truthy r); simpl; [|reflexivity].
    destruct (os_makedirs env _); simpl; [reflexivity|].
    destruct (open_and_dump env _ t); reflexivity.
  - destruct (handle_call_status_returns env g u1) as (? & _ & -> & _).
    destruct (handle_call_status_returns env g u2) as (? & _ & -> & _).
    reflexivity.
Qed.

Lemma call_sid_irrelevant_witness :
  effects (events_of (handle_call_status (Demo.update "CA1" "completed") Demo.env Demo.globals))
  = effects (events_of (handle_call_status (Demo.update "CA2" "completed") Demo.env Demo.globals)).
Proof.
  exact (proj1 (proj2 (proj2
    (call_sid_irrelevant Demo.env Demo.globals
       (Demo.update "CA1" "completed") (Demo.update "CA2" "completed")
       eq_refl eq_refl)))).
Defined.

(** ** The script builder never fails on the template *)

Lemma render_fill (kwargs : list (string * string)) (segs : list seg) :
  forallb (resolves kwargs) segs = true ->
  render kwargs segs = inr (fill kwargs segs).
Proof.
  induction segs as [|sg segs IH]; simpl; [reflexivity|].
  intros H. apply andb_prop in H as [H1 H2].
  unfold resolves in H1. unfold seg_text.
  destruct (render_seg kwargs sg) as [e|t]; [discriminate|].
  rewrite (IH H2). reflexivity.
Qed.

Lemma prompt_resolves (c : ContactResponse) :
  forallb (resolves (prompt_kwargs c)) prompt_segments = true.
Proof. vm_compute. reflexivity. Qed.

Lemma formatted_prompt_ok (c : ContactResponse) :
  formatted_prompt c = inr (fill (prompt_kwargs c) prompt_segments).
Proof.
  unfold formatted_prompt, format. fold prompt_segments.
  apply render_fill, prompt_resolves.
Qed.

(** ** The current session *)

Lemma create_call_globals (env : Env) (g : Globals) (c : ContactResponse) :
  globals_of (create_call c env g) =
    match session_of (env, c) with
    | Some (id, name) =>
        {| voice_call_id := id;
           twilio_call_id := twilio_call_id g;
           transcription_customer_name := name |}
    | None => g
    end.
Proof.
  unfold session_of, create_call. simpl.
  rewrite (formatted_prompt_ok c).
  unfold_run. unfold set_voice_call_id, set_transcription_customer_name. simpl.
  destruct (voice_post env _ _) as [e|resp]; simpl; [destruct e|]; reflexivity.
Qed.

Lemma run_sessions_last (calls : list (Env * ContactResponse)) (g : Globals) :
  current_session (run_sessions calls g) =
    default (current_session g) (last (omap session_of calls)).
Proof.
  revert g. induction calls as [|[env c] calls IH]; intros g; [reflexivity|].
  cbn [run_sessions]. rewrite IH, create_call_globals.
  assert (Hcons : omap session_of ((env, c) :: calls) =
                  match session_of (env, c) with
                  | Some s => s :: omap session_of calls
                  | None => omap session_of calls
                  end) by reflexivity.
  rewrite Hcons.
  destruct (session_of (env, c)) as [[id name]|]; [|reflexivity].
  rewrite last_cons.
  destruct (last (omap session_of calls)); reflexivity.
Qed.

(** C4. The current session is the one pair (voice call id, customer name)
    of the globals. A [create_call] the provider accepts overwrites both
    members with the new call id and the customer's name; after any sequence
    of [create_call]s the pair is the one of the last accepted call; and the
    [completed] branch of the webhook handler fetches the transcript of
    exactly this call id and saves under exactly this name, leaving the pair
    as it was. *)
Theorem current_session_single_pair
    (env : Env) (g : Globals) (calls : list (Env * ContactResponse))
    (u : CallStatusUpdate) :
  (forall (c : ContactResponse) (prompt : string) (voice_response : gmap string string),
     formatted_prompt c = inr prompt ->
     voice_post env VOICE_API_URL prompt = inr voice_response ->
     result_of (create_call c env g) = inr voice_response /\
     current_session (globals_of (create_call c env g))
       = (voice_response !! "callId", customer_name c)) /\
  current_session (run_sessions calls g)
    = default (current_session g) (last (omap session_of calls)) /\
  (CallStatus u = "completed" ->
   let r := handle_call_status u env g in
   fetches (events_of r) = [transcript_url (current_session g).1] /\
   (forall p d, In (p, d) (persisted (events_of r)) ->
      p = transcript_file_name (current_session g).2 (datetime_now env)) /\
   current_session (globals_of r) = current_session g).
Proof.
  split; [|split].
  - intros c prompt resp Hp Hr. split.
    + unfold create_call. unfold_run. rewrite Hp. simpl. rewrite Hr. reflexivity.
    + rewrite create_call_globals. unfold session_of. cbn [fst snd].
      rewrite Hp, Hr. reflexivity.
  - apply run_sessions_last.
  - intros Hc r. subst r.
    split; [exact (completed_fetches env g u Hc)|].
    split; [exact (completed_persisted_path env g u Hc)|].
    destruct (handle_call_status_returns env g u) as (? & _ & -> & _).
    reflexivity.
Qed.

Lemma current_session_single_pair_witness :
  current_session (globals_of (create_call (Demo.customer "Ravi") Demo.env2 Demo.globals))
    = (Some "vc-2", "Ravi") /\
  fetches (events_of (handle_call_status (Demo.update "CA1" "completed") Demo.env Demo.globals))
    = [transcript_url (Some "vc-1")].
Proof.
  pose proof (current_session_single_pair Demo.env2 Demo.globals [] (Demo.update "CA1" "completed"))
    as (Hcreate & _ & _).
  pose proof (current_session_single_pair Demo.env Demo.globals [] (Demo.update "CA1" "completed"))
    as (_ & _ & Hread).
  split.
  - exact (proj2 (Hcreate (Demo.customer "Ravi") _ {[ "callId" := "vc-2" ]}
                    (formatted_prompt_ok _) eq_refl)).
  - exact (proj1 (Hread eq_refl)).
Defined.

(** ** CRM lookup *)

(** With at least one match the lookup returns the properties of the
    first, whatever follows it. *)
Lemma fetch_contact_first_match (env : Env) (g : Globals) (name : string)
    (first : gmap string (option string)) (others : list (gmap string (option string))) :
  hubspot_do_search env name = inr (first :: others) ->
  result_of (fetch_contact name env g) = inr first.
Proof. intros H. unfold_run. simpl. rewrite H. reflexivity. Qed.

(** A failing CRM call is an [HTTPException] with status 500. *)
Lemma fetch_contact_upstream_error (env : Env) (g : Globals) (name : string) (e : exn) :
  hubspot_do_search env name = inl e ->
  result_of (fetch_contact name env g)
    = inl (HTTPException 500 ("Failed to fetch HubSpot data: " +:+ str_exn e)).
Proof. intros H. unfold_run. simpl. rewrite H. reflexivity. Qed.

(** C3, at the input where the code departs from it. When the search has
    no result, the 404 raised inside the [try] is caught by its own
    [except Exception] clause and replaced by a 500: the lookup fails with
    status 500, and so does the [fetch-contact] endpoint. *)
Theorem fetch_contact_no_match_is_500 (env : Env) (g : Globals) (name : string) :
  hubspot_do_search env name = inr [] ->
  result_of (fetch_contact name env g)
    = inl (HTTPException 500
             ("Failed to fetch HubSpot data: "
              +:+ str_exn (HTTPException 404 ("No contact found for name: " +:+ name)))) /\
  (name <> EmptyString ->
   status_of (serve (get_hubspot_contact name) env g).1.1 = 500%N).
Proof.
  intros H. split.
  - unfold_run. simpl. rewrite H. reflexivity.
  - intros Hne. unfold get_hubspot_contact.
    destruct (String.eqb_spec name EmptyString) as [E|_]; [contradiction|].
    unfold_run. simpl. rewrite H. reflexivity.
Qed.

Lemma fetch_contact_no_match_is_500_witness :
  status_of (serve (get_hubspot_contact "Nobody") Demo.env Demo.globals).1.1 = 500%N.
Proof.
  apply (proj2 (fetch_contact_no_match_is_500 Demo.env Demo.globals "Nobody" eq_refl)).
  discriminate.
Defined.

(** ** Saving a transcript *)

(** The file name depends on the clock only down to the second. *)
Lemma transcript_file_name_seconds (name : string) (t1 t2 : datetime) :
  year t1 = year t2 -> month t1 = month t2 -> day t1 = day t2 ->
  hour t1 = hour t2 -> minute t1 = minute t2 -> second t1 = second t2 ->
  transcript_file_name name t1 = transcript_file_name name t2.
Proof.
  intros Hy Hm Hd HH HM HS. unfold transcript_file_name, strftime_stamp.
  rewrite Hy, Hm, Hd, HH, HM, HS. reflexivity.
Qed.

(** With the directory in place, [save_conversations] returns normally
    whether or not the file could be written; the file is written under
    [conversations/<name>_<stamp>.json], or the failure is printed. *)
Lemma save_conversations_best_effort_write (env : Env) (g : Globals)
    (transcript : json) (name : string) :
  os_makedirs env "conversations" = None ->
  let path := transcript_file_name name (datetime_now env) in
  save_conversations transcript name env g =
    match open_and_dump env path transcript with
    | None =>
        (inr tt, g,
         [EvMakedirs "conversations"; EvOpen path; EvFileWritten path transcript;
          EvPrint [PStr ("saved conversation to " +:+ path)]])
    | Some e =>
        (inr tt, g,
         [EvMakedirs "conversations"; EvOpen path;
          EvPrint [PStr "Failed to save the conversation: "; PExn e]])
    end.
Proof.
  intros Hdir path. subst path. unfold_run. rewrite Hdir. simpl.
  destruct (open_and_dump env _ transcript); reflexivity.
Qed.

(** C8, at the input where the code departs from it. [os.makedirs] is
    called before the [try]: when the storage directory cannot be created
    the exception leaves [save_conversations], nothing is printed or logged
    and no file is opened. *)
Theorem save_conversations_makedirs_propagates (env : Env) (g : Globals)
    (transcript : json) (name : string) (e : exn) :
  os_makedirs env "conversations" = Some e ->
  save_conversations transcript name env g = (inl e, g, [EvMakedirs "conversations"]).
Proof. intros Hdir. unfold_run. rewrite Hdir. reflexivity. Qed.

Lemma save_conversations_makedirs_propagates_witness :
  result_of (save_conversations Demo.transcript "Asha Rao" Demo.env_no_dir Demo.globals)
    = inl (Exception "FileExistsError" "[Errno 17] File exists: 'conversations'").
Proof.
  rewrite (save_conversations_makedirs_propagates Demo.env_no_dir Demo.globals
             Demo.transcript "Asha Rao" _ eq_refl).
  reflexivity.
Defined.

(** ** The fetch-transcript endpoint *)

(** A failed lookup is answered 500: the client library raises its own
    exceptions, never FastAPI's [HTTPException]. *)
Lemma get_call_transcript_lookup_failure (env : Env) (g : Globals)
    (call_id : string) (e : exn) :
  voice_get env (transcript_url (Some call_id)) = inl e ->
  (forall sc d, e <> HTTPException sc d) ->
  status_of (serve (get_call_transcript call_id) env g).1.1 = 500%N.
Proof.
  intros H Hlib. unfold_run. simpl. rewrite H.
  destruct e; [exfalso; eapply Hlib; reflexivity| |]; reflexivity.
Qed.

(** Only a transcript that is a bare JSON string passes the response
    model. *)
Lemma get_call_transcript_string_payload (env : Env) (g : Globals)
    (call_id text : string) :
  voice_get env (transcript_url (Some call_id)) = inr (JStr text) ->
  (serve (get_call_transcript call_id) env g).1.1 =
    Response200 {| tr_call_id := call_id; tr_transcript := text;
                   tr_message := "Transcript fetched successfully for call " +:+ call_id |}.
Proof. intros H. unfold_run. simpl. rewrite H. reflexivity. Qed.

(** C9, at the input where the code departs from it. The provider's lookup
    succeeds and returns the message list, a JSON object; the response model
    declares [transcript: str], its validation fails, and the endpoint
    answers 500 instead of 200 with the transcript. *)
Theorem get_call_transcript_success_is_500 (env : Env) (g : Globals)
    (call_id : string) (fields : list (string * json)) :
  voice_get env (transcript_url (Some call_id)) = inr (JObj fields) ->
  (serve (get_call_transcript call_id) env g).1.1 =
    ResponseError 500
      ("Failed to fetch transcript: "
       +:+ str_exn (ValidationError "TranscriptResponse" ["transcript"])).
Proof. intros H. unfold_run. simpl. rewrite H. reflexivity. Qed.

Lemma get_call_transcript_success_is_500_witness :
  status_of (serve (get_call_transcript "vc-1") Demo.env Demo.globals).1.1 = 500%N.
Proof.
  rewrite (get_call_transcript_success_is_500 Demo.env Demo.globals "vc-1" _ eq_refl).
  reflexivity.
Defined.

(** ** Strings *)

Lemma append_cons (x : ascii) (a b : string) : String x a +:+ b = String x (a +:+ b).
Proof. reflexivity. Qed.

Lemma append_empty_l (a : string) : EmptyString +:+ a = a.
Proof. reflexivity. Qed.

Lemma append_assoc (a b c : string) : (a +:+ b) +:+ c = a +:+ (b +:+ c).
Proof.
  induction a as [|x a IH]; [reflexivity|].
  rewrite !append_cons, IH. reflexivity.
Qed.

Lemma append_empty_r (a : string) : a +:+ EmptyString = a.
Proof.
  induction a as [|x a IH]; [reflexivity|].
  rewrite append_cons, IH. reflexivity.
Qed.

Lemma contains_refl (a : string) : Py.contains a a.
Proof.
  exists EmptyString, EmptyString.
  rewrite append_empty_l, append_empty_r. reflexivity.
Qed.

Lemma contains_app_l (x a b : string) : Py.contains x a -> Py.contains x (a +:+ b).
Proof.
  intros (pre & post & ->). exists pre, (post +:+ b).
  rewrite !append_assoc. reflexivity.
Qed.

Lemma contains_app_r (x a b : string) : Py.contains x b -> Py.contains x (a +:+ b).
Proof.
  intros (pre & post & ->). exists (a +:+ pre), post.
  rewrite !append_assoc. reflexivity.
Qed.

Lemma contains_trans (x y z : string) :
  Py.contains x y -> Py.contains y z -> Py.contains x z.
Proof.
  intros (p1 & q1 & ->) (p2 & q2 & ->). exists (p2 +:+ p1), (q1 +:+ q2).
  rewrite !append_assoc. reflexivity.
Qed.

Lemma lstrip_suffix (s : string) : exists pre, s = pre +:+ Py.lstrip s.
Proof.
  induction s as [|c s (pre & IH)].
  - exists EmptyString. reflexivity.
  - cbn [Py.lstrip]. destruct (Py.isspace c).
    + exists (String c pre). rewrite append_cons, <- IH. reflexivity.
    + exists EmptyString. reflexivity.
Qed.

Lemma rstrip_prefix (s : string) : exists post, s = Py.rstrip s +:+ post.
Proof.
  induction s as [|c s (post & IH)].
  - exists EmptyString. reflexivity.
  - cbn [Py.rstrip]. destruct (Py.rstrip s) as [|d r] eqn:E.
    + destruct (Py.isspace c).
      * exists (String c s). reflexivity.
      * exists post. rewrite append_cons, <- IH. reflexivity.
    + exists post. rewrite append_cons, <- IH. reflexivity.
Qed.

(** The stripped name still occurs in the name. *)
Lemma strip_contained (s : string) : Py.contains (Py.strip s) s.
Proof.
  unfold Py.strip.
  destruct (lstrip_suffix s) as (pre & Hpre).
  destruct (rstrip_prefix (Py.lstrip s)) as (post & Hpost).
  exists pre, post. rewrite <- Hpost. exact Hpre.
Qed.

Ltac occurs :=
  repeat first
    [ apply contains_refl
    | apply contains_app_l; apply contains_refl
    | apply contains_app_r ].

(** ** The normaliser *)

Lemma py_get_absent (m : gmap string (option string)) (k : string) (d : option string) :
  m !! k = None -> py_get m k d = d.
Proof. intros H. unfold py_get. rewrite H. reflexivity. Qed.

Lemma py_get_present (m : gmap string (option string)) (k : string)
    (d v : option string) :
  m !! k = Some v -> py_get m k d = v.
Proof. intros H. unfold py_get. rewrite H. reflexivity. Qed.

Lemma py_get_str (m : gmap string (option string)) (k d : string) :
  m !! k <> Some None -> py_get m k (Some d) = Some (field_or m k d).
Proof.
  intros H. unfold py_get, field_or.
  destruct (m !! k) as [[s|]|]; simpl; congruence.
Qed.

(** What a successful construction says about the record: every property
    read was a string, and the fields are those strings. *)
Lemma create_response_object_inv (dest : string) (now : datetime)
    (m : gmap string (option string)) (ctx : ContactResponse) :
  create_response_object dest now m = inr ctx ->
  exists raw_name : string,
    py_get m "customer_name" (Some EmptyString) = Some raw_name /\
    customer_name ctx = Py.strip raw_name /\
    py_get m "bank_name" (Some "Example Bank") = Some (bank_name ctx) /\
    py_get m "loan_type" (Some EmptyString) = Some (loan_type ctx) /\
    py_get m "outstanding_amount" (Some EmptyString) = Some (outstanding_amount ctx) /\
    py_get m "missed_emi_count" (Some EmptyString) = Some (missed_emi_count ctx) /\
    py_get m "emi_amount" (Some EmptyString) = Some (emi_amount ctx) /\
    py_get m "dpd_days" (Some EmptyString) = Some (dpd_days ctx) /\
    py_get m "due_date" (Some EmptyString) = Some (due_date ctx) /\
    py_get m "secure_payment_link" (Some "https://example.com/payment")
      = Some (secure_payment_link ctx) /\
    py_get m "phone_number" (Some dest) = Some (phone_number ctx) /\
    main_message ctx = _build_main_message m.
Proof.
  unfold create_response_object.
  destruct (py_get m "customer_name" (Some EmptyString)) as [raw|] eqn:Hname;
    [|discriminate].
  unfold ContactResponse_init, contact_kwargs.
  repeat match goal with
         | |- context [py_get m ?k ?d] =>
             let E := fresh "E" in
             destruct (py_get m k d) as [?|] eqn:E; [|discriminate]
         end.
  intros H. injection H as <-. exists raw. repeat split; reflexivity.
Qed.

(** C5, as the code has it. When the normaliser returns a call context, a
    property that is missing from the record takes its configured default
    (bank name, payment link, phone number) and a property that is present
    is kept as it is, the empty string included; the main message is the
    one fixed sentence, with the record's customer name, bank name,
    outstanding amount and payment link in it verbatim. *)
Theorem normalizer_defaults_and_message (dest : string) (now : datetime)
    (m : gmap string (option string)) (ctx : ContactResponse) :
  create_response_object dest now m = inr ctx ->
  (m !! "bank_name" = None -> bank_name ctx = "Example Bank") /\
  (m !! "secure_payment_link" = None ->
     secure_payment_link ctx = "https://example.com/payment") /\
  (m !! "phone_number" = None -> phone_number ctx = dest) /\
  (forall s, m !! "bank_name" = Some (Some s) -> bank_name ctx = s) /\
  (forall s, m !! "secure_payment_link" = Some (Some s) -> secure_payment_link ctx = s) /\
  (forall s, m !! "phone_number" = Some (Some s) -> phone_number ctx = s) /\
  exists raw_name : string,
    py_get m "customer_name" (Some EmptyString) = Some raw_name /\
    customer_name ctx = Py.strip raw_name /\
    main_message ctx =
      "Hello " +:+ raw_name
      +:+ ", this is " +:+ bank_name ctx
      +:+ " regarding your " +:+ loan_type ctx
      +:+ ". Your outstanding balance is " +:+ outstanding_amount ctx
      +:+ " rupees. You have missed " +:+ missed_emi_count ctx
      +:+ " EMI payments of " +:+ emi_amount ctx
      +:+ " rupees each. Your account is " +:+ dpd_days ctx
      +:+ " days past due as of " +:+ due_date ctx
      +:+ ". Please make a payment today via our mobile app at "
      +:+ secure_payment_link ctx +:+ "." /\
    Py.contains raw_name (main_message ctx) /\
    Py.contains (customer_name ctx) (main_message ctx) /\
    Py.contains (bank_name ctx) (main_message ctx) /\
    Py.contains (outstanding_amount ctx) (main_message ctx) /\
    Py.contains (secure_payment_link ctx) (main_message ctx).
Proof.
  intros H.
  destruct (create_response_object_inv dest now m ctx H)
    as (raw & Hname & Hstrip & Hbank & Hloan & Hout & Hmiss & Hemi & Hdpd & Hdue
        & Hlink & Hphone & Hmsg).
  assert (Hmain : main_message ctx =
      "Hello " +:+ raw
      +:+ ", this is " +:+ bank_name ctx
      +:+ " regarding your " +:+ loan_type ctx
      +:+ ". Your outstanding balance is " +:+ outstanding_amount ctx
      +:+ " rupees. You have missed " +:+ missed_emi_count ctx
      +:+ " EMI payments of " +:+ emi_amount ctx
      +:+ " rupees each. Your account is " +:+ dpd_days ctx
      +:+ " days past due as of " +:+ due_date ctx
      +:+ ". Please make a payment today via our mobile app at "
      +:+ secure_payment_link ctx +:+ ".").
  { rewrite Hmsg. unfold _build_main_message.
    rewrite Hname, Hbank, Hloan, Hout, Hmiss, Hemi, Hdpd, Hdue, Hlink. reflexivity. }
  assert (Hraw : Py.contains raw (main_message ctx)) by (rewrite Hmain; occurs).
  repeat split.
  - intros Habs. rewrite (py_get_absent _ _ _ Habs) in Hbank. congruence.
  - intros Habs. rewrite (py_get_absent _ _ _ Habs) in Hlink. congruence.
  - intros Habs. rewrite (py_get_absent _ _ _ Habs) in Hphone. congruence.
  - intros s Hs. rewrite (py_get_present _ _ _ _ Hs) in Hbank. congruence.
  - intros s Hs. rewrite (py_get_present _ _ _ _ Hs) in Hlink. congruence.
  - intros s Hs. rewrite (py_get_present _ _ _ _ Hs) in Hphone. congruence.
  - exists raw. repeat split; try assumption.
    + rewrite Hstrip. eapply contains_trans; [apply strip_contained|exact Hraw].
    + rewrite Hmain. occurs.
    + rewrite Hmain. occurs.
    + rewrite Hmain. occurs.
Qed.

Lemma normalizer_defaults_and_message_witness :
  exists ctx : ContactResponse,
    create_response_object "+918919025218" Demo.now Demo.asha = inr ctx /\
    bank_name ctx = "Example Bank" /\
    Py.contains (outstanding_amount ctx) (main_message ctx).
Proof.
  destruct (create_response_object "+918919025218" Demo.now Demo.asha) as [e|ctx] eqn:E;
    [vm_compute in E; discriminate|].
  exists ctx. split; [reflexivity|].
  pose proof (normalizer_defaults_and_message _ _ _ _ E)
    as (Hbank & _ & _ & _ & _ & _ & raw & _ & _ & _ & _ & _ & _ & Hout & _).
  split; [apply Hbank; vm_compute; reflexivity|exact Hout].
Defined.

(** C5 fails as stated: a bank name that is present and empty stays
    empty, although a default for it is configured. *)
Lemma normalizer_blank_bank_counterexample :
  exists ctx : ContactResponse,
    create_response_object "+918919025218" Demo.now Demo.blank_bank = inr ctx /\
    Demo.blank_bank !! "bank_name" = Some (Some EmptyString) /\
    bank_name ctx = EmptyString.
Proof. eexists. vm_compute. repeat split. Qed.

(** C7, as the code has it. On every property mapping whose present values
    are strings, however many keys are missing and however many values are
    empty, the normaliser raises nothing and returns the call context with
    every field filled in: the property's value, or its default when the
    key is missing. *)
Theorem normalizer_total_on_strings (dest : string) (now : datetime)
    (m : gmap string (option string)) :
  (forall k v, m !! k = Some v -> v <> None) ->
  create_response_object dest now m =
    inr {| bank_name := field_or m "bank_name" "Example Bank";
           customer_name := Py.strip (field_or m "customer_name" EmptyString);
           loan_type := field_or m "loan_type" EmptyString;
           outstanding_amount := field_or m "outstanding_amount" EmptyString;
           missed_emi_count := field_or m "missed_emi_count" EmptyString;
           emi_amount := field_or m "emi_amount" EmptyString;
           due_date := field_or m "due_date" EmptyString;
           proposed_months := field_or m "proposed_months" EmptyString;
           amount := field_or m "amount" EmptyString;
           months := field_or m "months" EmptyString;
           phone_number := field_or m "phone_number" dest;
           call_status := field_or m "call_status" EmptyString;
           number_of_call_attempts := field_or m "number_of_call_attempts" EmptyString;
           call_lifted_time := field_or m "call_lifted_time" EmptyString;
           secure_payment_link :=
             field_or m "secure_payment_link" "https://example.com/payment";
           preferred_callback_time := field_or m "preferred_callback_time" EmptyString;
           main_message := _build_main_message m;
           dpd_days := field_or m "dpd_days" EmptyString;
           date := strftime_Ymd now;
           agent_name := "Yaswanth" |}.
Proof.
  intros Hstr.
  assert (Hk : forall k, m !! k <> Some None).
  { intros k Hnone. exact (Hstr k None Hnone eq_refl). }
  unfold create_response_object.
  rewrite (py_get_str m "customer_name" EmptyString (Hk _)).
  unfold ContactResponse_init, contact_kwargs.
  rewrite !py_get_str by apply Hk.
  reflexivity.
Qed.

Lemma normalizer_total_on_strings_witness :
  exists ctx : ContactResponse,
    create_response_object "+918919025218" Demo.now Demo.asha = inr ctx.
Proof.
  eexists.
  apply (normalizer_total_on_strings "+918919025218" Demo.now Demo.asha).
  apply (bool_decide_unpack (map_Forall (fun _ v => v <> None) Demo.asha)).
  vm_compute. exact I.
Defined.

(** C7 fails as stated: a property that is present with a null value makes
    the normaliser raise. *)
Lemma normalizer_null_value_counterexample :
  Demo.null_name !! "customer_name" = Some None /\
  create_response_object "+918919025218" Demo.now Demo.null_name
    = inl (Exception "AttributeError" "'NoneType' object has no attribute 'strip'").
Proof. vm_compute. split; reflexivity. Qed.

(** ** The script builder *)

Lemma fill_contains (kwargs : list (string * string)) (sg : seg) (segs : list seg) :
  In sg segs -> Py.contains (seg_text kwargs sg) (fill kwargs segs).
Proof.
  induction segs as [|s segs IH]; [intros []|].
  intros [->|Hin]; cbn [fill].
  - apply contains_app_l, contains_refl.
  - apply contains_app_r, IH, Hin.
Qed.

Lemma prompt_has_field (name : string) :
  existsb (fun sg => match sg with Field n => String.eqb n name | _ => false end)
          prompt_segments = true ->
  In (Field name) prompt_segments.
Proof.
  intros H. apply existsb_exists in H as (sg & Hin & Hsg).
  destruct sg as [c|n|msg]; try discriminate.
  apply String.eqb_eq in Hsg. subst n. exact Hin.
Qed.

Lemma brace_free_app (a b : string) :
  brace_free (a +:+ b) = brace_free a && brace_free b.
Proof.
  unfold brace_free. induction a as [|x a IH]; [reflexivity|].
  rewrite append_cons. cbn [list_ascii_of_string forallb].
  rewrite IH, andb_assoc. reflexivity.
Qed.

Lemma fill_brace_free (kwargs : list (string * string)) (segs : list seg) :
  (forall sg, In sg segs -> brace_free (seg_text kwargs sg) = true) ->
  brace_free (fill kwargs segs) = true.
Proof.
  induction segs as [|s segs IH]; intros H; [reflexivity|].
  cbn [fill]. rewrite brace_free_app, (H s (or_introl eq_refl)), IH; [reflexivity|].
  intros sg Hin. apply H. right. exact Hin.
Qed.

(** A text without braces has no placeholder in it. *)
Lemma brace_free_no_placeholder (text : string) :
  brace_free text = true -> ~ has_placeholder text.
Proof.
  intros Hfree (name & _ & _ & pre & post & ->).
  rewrite !brace_free_app in Hfree.
  apply andb_prop in Hfree as [_ Hfree].
  apply andb_prop in Hfree as [Hfree _].
  apply andb_prop in Hfree as [Hfree _].
  discriminate.
Qed.

(** The template has five field names and no brace outside its fields. *)
Lemma prompt_segments_ok : forallb template_seg_ok prompt_segments = true.
Proof. vm_compute. reflexivity. Qed.

Lemma prompt_seg_brace_free (c : ContactResponse) (sg : seg) :
  brace_free (agent_name c) = true ->
  brace_free (bank_name c) = true ->
  brace_free (customer_name c) = true ->
  brace_free (main_message c) = true ->
  brace_free (preferred_callback_time c) = true ->
  template_seg_ok sg = true ->
  brace_free (seg_text (prompt_kwargs c) sg) = true.
Proof.
  intros Ha Hb Hc Hm Hp Hok. destruct sg as [ch|n|msg]; [| |discriminate].
  - cbn in Hok |- *. unfold brace_free. cbn. rewrite Hok. reflexivity.
  - cbn [template_seg_ok existsb] in Hok.
    repeat match type of Hok with
           | (_ || _)%bool = true => apply orb_prop in Hok as [Hok|Hok]
           end;
      try discriminate; apply String.eqb_eq in Hok; subst n; assumption.
Qed.

(** C6, as the code has it. For every call context the script builder
    succeeds; its output is the template with every field replaced by the
    context's value, so the customer name and the main message (and the
    agent name, the bank name and the preferred callback time) stand where
    their placeholders stood; and when none of the five values contains a
    brace, the output contains no placeholder syntax. *)
Theorem script_builder_substitutes (c : ContactResponse) :
  exists out : string,
    formatted_prompt c = inr out /\
    out = fill (prompt_kwargs c) prompt_segments /\
    seg_text (prompt_kwargs c) (Field "customer_name") = customer_name c /\
    seg_text (prompt_kwargs c) (Field "main_message") = main_message c /\
    Py.contains (customer_name c) out /\
    Py.contains (main_message c) out /\
    Py.contains (agent_name c) out /\
    Py.contains (bank_name c) out /\
    Py.contains (preferred_callback_time c) out /\
    (brace_free (agent_name c) = true ->
     brace_free (bank_name c) = true ->
     brace_free (customer_name c) = true ->
     brace_free (main_message c) = true ->
     brace_free (preferred_callback_time c) = true ->
     ~ has_placeholder out).
Proof.
  exists (fill (prompt_kwargs c) prompt_segments).
  split; [apply formatted_prompt_ok|]. split; [reflexivity|].
  split; [reflexivity|]. split; [reflexivity|].
  repeat split.
  - apply (fill_contains (prompt_kwargs c) (Field "customer_name")).
    apply prompt_has_field. vm_compute. reflexivity.
  - apply (fill_contains (prompt_kwargs c) (Field "main_message")).
    apply prompt_has_field. vm_compute. reflexivity.
  - apply (fill_contains (prompt_kwargs c) (Field "agent_name")).
    apply prompt_has_field. vm_compute. reflexivity.
  - apply (fill_contains (prompt_kwargs c) (Field "bank_name")).
    apply prompt_has_field. vm_compute. reflexivity.
  - apply (fill_contains (prompt_kwargs c) (Field "preferred_callback_time")).
    apply prompt_has_field. vm_compute. reflexivity.
  - intros Ha Hb Hc Hm Hp. apply brace_free_no_placeholder, fill_brace_free.
    intros sg Hin. apply prompt_seg_brace_free; try assumption.
    pose proof prompt_segments_ok as Hall.
    rewrite forallb_forall in Hall. apply Hall, Hin.
Qed.

Lemma script_builder_substitutes_witness :
  exists out : string,
    formatted_prompt (Demo.customer "Asha Rao") = inr out /\
    Py.contains "Asha Rao" out /\ ~ has_placeholder out.
Proof.
  destruct (script_builder_substitutes (Demo.customer "Asha Rao"))
    as (out & Hout & _ & _ & _ & Hname & _ & _ & _ & _ & Hfree).
  exists out. split; [exact Hout|]. split; [exact Hname|].
  apply Hfree; reflexivity.
Defined.

(** C6 fails as stated: a value is copied as it is and not read again, so
    a customer name written with braces leaves placeholder syntax in the
    script. *)
Lemma script_builder_brace_counterexample :
  exists out : string,
    formatted_prompt (Demo.customer "{agent_name}") = inr out /\
    has_placeholder out.
Proof.
  exists (fill (prompt_kwargs (Demo.customer "{agent_name}")) prompt_segments).
  split; [apply formatted_prompt_ok|].
  exists "agent_name". split; [discriminate|]. split; [reflexivity|].
  apply (fill_contains (prompt_kwargs (Demo.customer "{agent_name}"))
           (Field "customer_name")).
  apply prompt_has_field. vm_compute. reflexivity.
Qed.

(** ** The whole pipeline on the sample record *)

Example initiate_call_asha :
  result_of (initiate_call "Asha Rao" Demo.env initial_globals)
    = inr {| icr_call_sid := "CA0001";
             icr_join_url := "wss://voice.example/join/vc-1";
             icr_call_id := Some "vc-1";
             icr_message := "Call initiated successfully for Asha Rao" |} /\
  globals_of (initiate_call "Asha Rao" Demo.env initial_globals) = Demo.globals.
Proof. vm_compute. split; reflexivity. Qed.

Example build_main_message_asha :
  _build_main_message Demo.asha =
    "Hello Asha Rao, this is Example Bank regarding your personal loan. "
    +:+ "Your outstanding balance is 45000 rupees. You have missed  "
    +:+ "EMI payments of  rupees each. Your account is  days past due as of "
    +:+ ". Please make a payment today via our mobile app at "
    +:+ "https://example.com/payment.".
Proof. vm_compute. reflexivity. Qed.

Example transcript_has_turns :
  has_turns Demo.transcript = true /\ has_turns Demo.empty_transcript = false.
Proof. split; reflexivity. Qed.

(** * Further properties of the code *)

(** ** Start-up *)

Lemma not_value_false (v : option string) :
  not_value v = false <-> exists s, v = Some s /\ s <> EmptyString.
Proof.
  destruct v as [s|]; simpl.
  - rewrite String.eqb_neq. split.
    + intros H. exists s. split; [reflexivity|exact H].
    + intros (s' & [= <-] & H). exact H.
  - split; [discriminate|]. intros (s & [=] & _).
Qed.

(** The names reported missing are the required names that are unset or
    empty, in the order of the table. *)
Lemma missing_vars_filter (getenv : string -> option string) :
  missing_vars getenv = List.filter (fun n => not_value (getenv n)) REQUIRED_NAMES.
Proof.
  unfold missing_vars, required_env_vars, REQUIRED_NAMES. cbn [List.filter snd].
  repeat match goal with
         | |- context [not_value ?v] => destruct (not_value v)
         end; reflexivity.
Qed.

(** X1. The environment check made at import passes exactly when each of
    the five required variables is set to a non-empty value; the destination
    number is not among them. *)
Theorem module_init_succeeds_iff (getenv : string -> option string) :
  (exists dest, module_init getenv = inr dest) <->
  (forall name, In name REQUIRED_NAMES ->
     exists s, getenv name = Some s /\ s <> EmptyString).
Proof.
  unfold module_init. rewrite missing_vars_filter. split.
  - intros (dest & H) name Hin.
    apply not_value_false.
    destruct (not_value (getenv name)) eqn:E; [|reflexivity].
    assert (Hmem : In name (List.filter (fun n => not_value (getenv n)) REQUIRED_NAMES)).
    { apply filter_In. split; assumption. }
    destruct (List.filter _ REQUIRED_NAMES); [destruct Hmem|discriminate].
  - intros Hall.
    assert (Hnil : List.filter (fun n => not_value (getenv n)) REQUIRED_NAMES = []).
    { destruct (List.filter _ REQUIRED_NAMES) as [|n l] eqn:E; [reflexivity|].
      assert (Hin : In n (n :: l)) by (left; reflexivity).
      rewrite <- E in Hin. apply filter_In in Hin as [Hreq Hnv].
      apply Hall, not_value_false in Hreq. congruence. }
    rewrite Hnil. eexists. reflexivity.
Qed.

(** X2. When the check fails it is with a [ValueError] whose message
    lists exactly the required variables that are unset or empty, in the
    order of the table, separated by a comma and a space. *)
Theorem module_init_reports_missing (getenv : string -> option string) (e : exn) :
  module_init getenv = inl e ->
  e = Exception "ValueError"
        ("Missing required environment variables: "
         +:+ String.concat ", "
               (List.filter (fun n => not_value (getenv n)) REQUIRED_NAMES)) /\
  exists name, In name REQUIRED_NAMES /\ not_value (getenv name) = true.
Proof.
  unfold module_init. rewrite missing_vars_filter.
  destruct (List.filter _ REQUIRED_NAMES) as [|n l] eqn:E; [discriminate|].
  intros [= <-]. split; [reflexivity|].
  assert (Hin : In n (n :: l)) by (left; reflexivity).
  rewrite <- E in Hin. apply filter_In in Hin. exists n. exact Hin.
Qed.

Lemma module_init_reports_missing_witness :
  module_init Demo2.getenv_partial
    = inl (Exception "ValueError"
             "Missing required environment variables: TWILIO_AUTH_TOKEN, VOICE_API_KEY").
Proof.
  destruct (module_init Demo2.getenv_partial) as [e|d] eqn:E; [|vm_compute in E; discriminate].
  rewrite (proj1 (module_init_reports_missing Demo2.getenv_partial e E)).
  reflexivity.
Defined.

Lemma module_init_succeeds_iff_witness :
  exists dest, module_init Demo2.getenv_ok = inr dest.
Proof.
  apply (proj2 (module_init_succeeds_iff Demo2.getenv_ok)).
  intros name Hin. exists "secret".
  repeat (destruct Hin as [<-|Hin]; [split; [reflexivity|discriminate]|]).
  destruct Hin.
Defined.

(** ** More on the normaliser *)

Lemma py_get_null (m : gmap string (option string)) (k : string) (d : option string) :
  m !! k = Some None -> py_get m k d = None.
Proof. intros H. unfold py_get. rewrite H. reflexivity. Qed.

Lemma py_get_agree (m1 m2 : gmap string (option string)) (k : string)
    (d : option string) :
  m1 !! k = m2 !! k -> py_get m1 k d = py_get m2 k d.
Proof. intros H. unfold py_get. rewrite H. reflexivity. Qed.

(** A returned context means no property read was null. *)
Lemma create_response_object_no_null (dest : string) (now : datetime)
    (m : gmap string (option string)) (ctx : ContactResponse) (k : string) :
  create_response_object dest now m = inr ctx ->
  In k READ_KEYS -> m !! k <> Some None.
Proof.
  unfold create_response_object.
  destruct (py_get m "customer_name" (Some EmptyString)) as [raw|] eqn:Hname;
    [|discriminate].
  unfold ContactResponse_init, contact_kwargs.
  repeat match goal with
         | |- context [py_get m ?key ?d] =>
             let E := fresh "E" in
             destruct (py_get m key d) as [?|] eqn:E; [|discriminate]
         end.
  intros _ Hin Hnull. unfold READ_KEYS in Hin.
  repeat (destruct Hin as [<-|Hin];
          [repeat match goal with
                  | E : py_get m _ _ = Some _ |- _ =>
                      rewrite (py_get_null _ _ _ Hnull) in E; discriminate
                  | E : py_get m _ _ = Some _ |- _ => clear E
                  end|]).
  destruct Hin.
Qed.

(** With no null among the properties read, the normaliser returns. *)
Lemma create_response_object_returns (dest : string) (now : datetime)
    (m : gmap string (option string)) :
  (forall k, In k READ_KEYS -> m !! k <> Some None) ->
  exists ctx, create_response_object dest now m = inr ctx.
Proof.
  intros Hk. unfold create_response_object.
  rewrite (py_get_str m "customer_name" EmptyString) by (apply Hk; cbn; tauto).
  unfold ContactResponse_init, contact_kwargs.
  rewrite !py_get_str by (apply Hk; cbn; tauto).
  eexists. reflexivity.
Qed.

(** X4. The normaliser raises exactly when one of the properties it reads
    is present with a null value: an [AttributeError] when it is the
    customer name, a validation error otherwise. Missing keys, empty values
    and properties it does not read never make it raise. *)
Theorem normalizer_raises_iff_null (dest : string) (now : datetime)
    (m : gmap string (option string)) :
  ((exists e, create_response_object dest now m = inl e) <->
   (exists k, In k READ_KEYS /\ m !! k = Some None)) /\
  (m !! "customer_name" = Some None ->
   exists msg, create_response_object dest now m
               = inl (Exception "AttributeError" msg)) /\
  (m !! "customer_name" <> Some None ->
   forall e, create_response_object dest now m = inl e ->
   exists msg, e = Exception "ValidationError" msg).
Proof.
  split; [split|split].
  - intros (e & He).
    destruct (decide (Exists (fun k => m !! k = Some None) READ_KEYS)) as [Hex|Hnone].
    + apply Exists_exists in Hex as (k & Hin & Hk).
      exists k. split; [apply list_elem_of_In, Hin|exact Hk].
    + exfalso.
      destruct (create_response_object_returns dest now m) as (ctx & Hctx).
      * intros k Hin Hk. apply Hnone, Exists_exists. exists k.
        split; [apply list_elem_of_In, Hin|exact Hk].
      * congruence.
  - intros (k & Hin & Hk).
    destruct (create_response_object dest now m) as [e|ctx] eqn:E; [exists e; reflexivity|].
    exfalso. exact (create_response_object_no_null dest now m ctx k E Hin Hk).
  - intros Hnull. unfold create_response_object.
    rewrite (py_get_null _ _ _ Hnull). eexists. reflexivity.
  - intros Hname e. unfold create_response_object.
    rewrite (py_get_str m "customer_name" EmptyString Hname).
    unfold ContactResponse_init.
    destruct (invalid_fields _); [discriminate|].
    intros [= <-]. eexists. reflexivity.
Qed.

Lemma normalizer_raises_iff_null_witness :
  exists msg, create_response_object "+918919025218" Demo.now Demo.null_name
              = inl (Exception "AttributeError" msg).
Proof.
  apply (proj1 (proj2 (normalizer_raises_iff_null "+918919025218" Demo.now Demo.null_name))).
  vm_compute. reflexivity.
Defined.

(** X5. The normaliser looks at nothing but the seventeen properties it
    reads: two records that agree on them give the same outcome, whatever
    else they hold. In particular the record's own [date] property never
    reaches the call context. *)
Theorem normalizer_reads_only_its_keys (dest : string) (now : datetime)
    (m1 m2 : gmap string (option string)) :
  (forall k, In k READ_KEYS -> m1 !! k = m2 !! k) ->
  create_response_object dest now m1 = create_response_object dest now m2.
Proof.
  intros Hagree.
  assert (Hpg : forall k d, In k READ_KEYS -> py_get m1 k d = py_get m2 k d).
  { intros k d Hin. apply py_get_agree, Hagree, Hin. }
  unfold create_response_object, _build_main_message, contact_kwargs.
  rewrite !Hpg by (cbn; tauto). reflexivity.
Qed.

Lemma normalizer_reads_only_its_keys_witness :
  create_response_object "+918919025218" Demo.now (<["date" := Some "1999-01-01"]> Demo.asha)
  = create_response_object "+918919025218" Demo.now Demo.asha.
Proof.
  apply normalizer_reads_only_its_keys.
  intros k Hin. apply lookup_insert_ne.
  intros <-. vm_compute in Hin. intuition discriminate.
Defined.

Lemma lstrip_head (s : string) (c : ascii) (r : string) :
  Py.lstrip s = String c r -> Py.isspace c = false.
Proof.
  induction s as [|x s IH]; [discriminate|].
  cbn [Py.lstrip]. destruct (Py.isspace x) eqn:E; [exact IH|].
  intros [= <- _]. exact E.
Qed.

Lemma rstrip_head (s : string) (c : ascii) (r : string) :
  Py.rstrip s = String c r -> exists r', s = String c r'.
Proof.
  destruct s as [|x s]; [discriminate|].
  cbn [Py.rstrip]. destruct (Py.rstrip s); [destruct (Py.isspace x)|];
    try discriminate; intros [= <- _]; eexists; reflexivity.
Qed.

Lemma rstrip_last (s pre : string) (c : ascii) :
  Py.rstrip s = pre +:+ String c EmptyString -> Py.isspace c = false.
Proof.
  revert pre. induction s as [|x s IH]; intros pre.
  - destruct pre; discriminate.
  - cbn [Py.rstrip]. destruct (Py.rstrip s) as [|d r] eqn:E.
    + destruct (Py.isspace x) eqn:Ex.
      * destruct pre; discriminate.
      * destruct pre as [|p pre]; [intros [= <-]; exact Ex|].
        rewrite append_cons. intros [= _ H]. destruct pre; discriminate.
    + destruct pre as [|p pre]; [discriminate|].
      rewrite append_cons. intros [= _ H]. exact (IH pre H).
Qed.

Lemma rstrip_fixed (s : string) :
  (forall pre c, s = pre +:+ String c EmptyString -> Py.isspace c = false) ->
  Py.rstrip s = s.
Proof.
  induction s as [|x s IH]; [reflexivity|]. intros Hlast.
  cbn [Py.rstrip]. rewrite IH.
  - destruct s; [|reflexivity].
    rewrite (Hlast EmptyString x eq_refl). reflexivity.
  - intros pre c ->. apply (Hlast (String x pre) c). reflexivity.
Qed.

Lemma lstrip_fixed (s : string) :
  (forall c r, s = String c r -> Py.isspace c = false) -> Py.lstrip s = s.
Proof.
  destruct s as [|x s]; [reflexivity|]. intros H.
  cbn [Py.lstrip]. rewrite (H x s eq_refl). reflexivity.
Qed.

(** X6. The customer name of a returned call context neither begins nor
    ends with a whitespace character, and stripping it again changes
    nothing. *)
Theorem normalizer_name_is_stripped (dest : string) (now : datetime)
    (m : gmap string (option string)) (ctx : ContactResponse) :
  create_response_object dest now m = inr ctx ->
  (forall c r, customer_name ctx = String c r -> Py.isspace c = false) /\
  (forall pre c, customer_name ctx = pre +:+ String c EmptyString ->
     Py.isspace c = false) /\
  Py.strip (customer_name ctx) = customer_name ctx.
Proof.
  intros H.
  destruct (create_response_object_inv dest now m ctx H) as (raw & _ & Hstrip & _).
  rewrite Hstrip. unfold Py.strip.
  assert (Hhead : forall c r, Py.rstrip (Py.lstrip raw) = String c r ->
                              Py.isspace c = false).
  { intros c r Hr. destruct (rstrip_head _ _ _ Hr) as (r' & Hl).
    exact (lstrip_head raw c r' Hl). }
  assert (Hlast : forall pre c,
             Py.rstrip (Py.lstrip raw) = pre +:+ String c EmptyString ->
             Py.isspace c = false).
  { intros pre c Hr. exact (rstrip_last _ pre c Hr). }
  split; [exact Hhead|]. split; [exact Hlast|].
  rewrite (lstrip_fixed _ Hhead). apply rstrip_fixed, Hlast.
Qed.

Lemma normalizer_name_is_stripped_witness :
  exists ctx,
    create_response_object "+918919025218" Demo.now
      {[ "customer_name" := Some "  Asha Rao " ]} = inr ctx /\
    Py.strip (customer_name ctx) = customer_name ctx.
Proof.
  destruct (create_response_object "+918919025218" Demo.now
              {[ "customer_name" := Some "  Asha Rao " ]}) as [e|ctx] eqn:E;
    [vm_compute in E; discriminate|].
  exists ctx. split; [reflexivity|].
  exact (proj2 (proj2 (normalizer_name_is_stripped _ _ _ _ E))).
Defined.

(** ** The services, one by one *)

Ltac unfold_services :=
  unfold initiate_call, get_hubspot_contact, create_call, twilio_initiate_call,
    calls_create, end_call_specific, end_call, end_call_generic,
    set_voice_call_id, set_transcription_customer_name, set_twilio_call_id in *;
  unfold_run.

(** X7. A CRM lookup searches once, for the name it was given, leaves the
    globals alone, and ends in one of two ways: it returns the first result
    of a search that had one, or it raises an [HTTPException] with status
    500. It never ends with another status or another exception. *)
Theorem fetch_contact_outcomes (env : Env) (g : Globals) (name : string) :
  let r := fetch_contact name env g in
  globals_of r = g /\
  effects (events_of r) = [EvSearch name] /\
  ((exists first rest,
      hubspot_do_search env name = inr (first :: rest) /\ result_of r = inr first) \/
   (exists detail, result_of r = inl (HTTPException 500 detail))).
Proof.
  unfold_run. simpl.
  destruct (hubspot_do_search env name) as [e|[|first rest]]; simpl.
  - repeat split. right. eexists. reflexivity.
  - repeat split. right. eexists. reflexivity.
  - repeat split. left. exists first, rest. split; reflexivity.
Qed.

(** X8. [create_call] posts once, the rendered script, to the call
    endpoint. When it fails the globals are untouched: a
    [RequestException] becomes a 500, any other exception leaves as it
    is. *)
Theorem create_call_failure (env : Env) (g : Globals) (c : ContactResponse) :
  let prompt := fill (prompt_kwargs c) prompt_segments in
  let r := create_call c env g in
  posts (events_of r) = [(VOICE_API_URL, prompt)] /\
  (forall e, result_of r = inl e -> globals_of r = g) /\
  (forall msg, voice_post env VOICE_API_URL prompt = inl (RequestException msg) ->
     result_of r = inl (HTTPException 500 ("Failed to create voice call: " +:+ msg))) /\
  (forall e, voice_post env VOICE_API_URL prompt = inl e ->
     (forall msg, e <> RequestException msg) -> result_of r = inl e).
Proof.
  intros prompt r. subst r prompt. unfold create_call.
  unfold_services. rewrite (formatted_prompt_ok c). cbn [fst snd].
  destruct (voice_post env VOICE_API_URL (fill (prompt_kwargs c) prompt_segments))
    as [e|resp]; [destruct e|]; simpl.
  - repeat split; try reflexivity; try discriminate.
    intros e [= <-] Hne. reflexivity.
  - repeat split; try reflexivity.
    + intros m [= <-]. reflexivity.
    + intros e [= <-] Hne. exfalso. exact (Hne _ eq_refl).
  - repeat split; try reflexivity; try discriminate.
    intros e [= <-] Hne. reflexivity.
  - repeat split; try discriminate.
Qed.

Lemma create_call_failure_witness :
  globals_of (create_call (Demo.customer "Ravi")
                {| DESTINATION_PHONE_NUMBER := "+918919025218";
                   datetime_now := Demo.now;
                   hubspot_do_search := fun _ => inr [];
                   voice_post := fun _ _ => inl (RequestException "503 Server Error");
                   voice_get := fun _ => inr JNull;
                   twilio_calls_create := fun _ _ _ => inr "CA0001";
                   os_makedirs := fun _ => None;
                   open_and_dump := fun _ _ => None |}
                Demo.globals)
  = Demo.globals.
Proof.
  eapply (proj1 (proj2 (create_call_failure _ Demo.globals (Demo.customer "Ravi")))).
  eapply (proj1 (proj2 (proj2 (create_call_failure _ Demo.globals (Demo.customer "Ravi"))))).
  reflexivity.
Defined.

(** X9. Placing the telephone call: the provider is asked once, with the
    TwiML that streams to the join URL. On success the new call's sid is
    returned and stored in [twilio_call_id], and the current session is not
    touched; on any failure the globals are untouched and the exception is
    an [HTTPException] with status 500 carrying the provider's message. *)
Theorem twilio_initiate_call_outcomes (env : Env) (g : Globals)
    (join_url phone callback : string) :
  let r := twilio_initiate_call join_url phone callback env g in
  twilio_calls (events_of r) = [(twiml_for join_url, phone, callback)] /\
  (forall sid, twilio_calls_create env (twiml_for join_url) phone callback = inr sid ->
     result_of r = inr sid /\
     twilio_call_id (globals_of r) = sid /\
     current_session (globals_of r) = current_session g) /\
  (forall e, twilio_calls_create env (twiml_for join_url) phone callback = inl e ->
     result_of r = inl (HTTPException 500 ("Failed to initiate call: " +:+ str_exn e)) /\
     globals_of r = g).
Proof.
  intros r. subst r. unfold_services. unfold twiml_for. simpl.
  destruct (twilio_calls_create env _ phone callback) as [e|sid]; simpl.
  - split; [reflexivity|]. split; [intros sid H; discriminate|].
    intros e' [= <-]. split; reflexivity.
  - split; [reflexivity|]. split; [|intros e H; discriminate].
    intros s [= <-]. repeat split.
Qed.

Lemma twilio_initiate_call_outcomes_witness :
  result_of (twilio_initiate_call "wss://voice.example/join/vc-1" "+918919025218"
               STATUS_CALLBACK_URL Demo.env Demo.globals) = inr "CA0001".
Proof.
  eapply (proj1 (proj2 (twilio_initiate_call_outcomes Demo.env Demo.globals _ _ _))).
  reflexivity.
Defined.

(** ** The initiate-call pipeline *)

Local Opaque formatted_prompt prompt_segments.

(** What one [initiate-call] request does, for each answer of the
    collaborators: its result, the globals it leaves and what it did to the
    outside. *)
Lemma initiate_call_run (env : Env) (g : Globals) (name : string) :
  let r := initiate_call name env g in
  match hubspot_do_search env name with
  | inr (first :: _) =>
      match create_response_object (DESTINATION_PHONE_NUMBER env) (datetime_now env) first with
      | inr c =>
          let prompt := fill (prompt_kwargs c) prompt_segments in
          match voice_post env VOICE_API_URL prompt with
          | inr resp =>
              let g1 := {| voice_call_id := resp !! "callId";
                           twilio_call_id := twilio_call_id g;
                           transcription_customer_name := customer_name c |} in
              match resp !! "joinUrl" with
              | Some (String ch j) =>
                  let join_url := String ch j in
                  match twilio_calls_create env (twiml_for join_url) (phone_number c)
                          STATUS_CALLBACK_URL with
                  | inr sid =>
                      result_of r =
                        inr {| icr_call_sid := sid;
                               icr_join_url := join_url;
                               icr_call_id := resp !! "callId";
                               icr_message := "Call initiated successfully for " +:+ name |} /\
                      globals_of r =
                        {| voice_call_id := resp !! "callId";
                           twilio_call_id := sid;
                           transcription_customer_name := customer_name c |} /\
                      effects (events_of r) =
                        [EvSearch name; EvPost VOICE_API_URL prompt;
                         EvTwilioCreate (twiml_for join_url) (phone_number c)
                           STATUS_CALLBACK_URL]
                  | inl e =>
                      result_of r =
                        inl (HTTPException 500 ("Failed to initiate call: " +:+ str_exn e)) /\
                      globals_of r = g1 /\
                      effects (events_of r) =
                        [EvSearch name; EvPost VOICE_API_URL prompt;
                         EvTwilioCreate (twiml_for join_url) (phone_number c)
                           STATUS_CALLBACK_URL]
                  end
              | _ =>
                  result_of r =
                    inl (HTTPException 500 "Failed to get joinUrl from Voice call") /\
                  globals_of r = g1 /\
                  effects (events_of r) = [EvSearch name; EvPost VOICE_API_URL prompt]
              end
          | inl e =>
              result_of r =
                inl match e with
                    | RequestException msg =>
                        HTTPException 500 ("Failed to create voice call: " +:+ msg)
                    | HTTPException sc d => HTTPException sc d
                    | Exception _ _ =>
                        HTTPException 500 ("Failed to initiate call: " +:+ str_exn e)
                    end /\
              globals_of r = g /\
              effects (events_of r) = [EvSearch name; EvPost VOICE_API_URL prompt]
          end
      | inl e =>
          result_of r =
            inl match e with
                | HTTPException sc d => HTTPException sc d
                | _ => HTTPException 500 ("Failed to initiate call: " +:+ str_exn e)
                end /\
          globals_of r = g /\
          effects (events_of r) = [EvSearch name]
      end
  | inr [] =>
      result_of r =
        inl (HTTPException 500
               ("Failed to fetch HubSpot data: "
                +:+ str_exn (HTTPException 404 ("No contact found for name: " +:+ name)))) /\
      globals_of r = g /\
      effects (events_of r) = [EvSearch name]
  | inl e =>
      result_of r =
        inl (HTTPException 500 ("Failed to fetch HubSpot data: " +:+ str_exn e)) /\
      globals_of r = g /\
      effects (events_of r) = [EvSearch name]
  end.
Proof.
  intros r. subst r. unfold_services. unfold twiml_for, STATUS_CALLBACK_URL. simpl.
  destruct (hubspot_do_search env name) as [e|[|first rest]]; simpl;
    [repeat split..|].
  destruct (create_response_object _ _ first) as [e|c]; simpl;
    [destruct e; repeat split|].
  rewrite (formatted_prompt_ok c). simpl.
  destruct (voice_post env VOICE_API_URL _) as [e|resp]; simpl;
    [destruct e; repeat split|].
  destruct (resp !! "joinUrl") as [[|ch j]|]; simpl; [repeat split| |repeat split].
  destruct (twilio_calls_create env _ _ _) as [e|sid]; simpl; repeat split.
Qed.

(** The normaliser raises Python exceptions only, never FastAPI's. *)
Lemma create_response_object_not_http (dest : string) (now : datetime)
    (m : gmap string (option string)) (sc : N) (d : string) :
  create_response_object dest now m <> inl (HTTPException sc d).
Proof.
  unfold create_response_object.
  destruct (py_get m "customer_name" (Some EmptyString)); [|discriminate].
  unfold ContactResponse_init. destruct (invalid_fields _); discriminate.
Qed.

Lemma twilio_calls_effects (ev : list event) :
  twilio_calls (effects ev) = twilio_calls ev.
Proof.
  induction ev as [|e ev IH]; [reflexivity|].
  destruct e; simpl; try rewrite IH; reflexivity.
Qed.

Lemma searches_effects (ev : list event) : searches (effects ev) = searches ev.
Proof.
  induction ev as [|e ev IH]; [reflexivity|].
  destruct e; simpl; try rewrite IH; reflexivity.
Qed.

Lemma posts_effects (ev : list event) : posts (effects ev) = posts ev.
Proof.
  induction ev as [|e ev IH]; [reflexivity|].
  destruct e; simpl; try rewrite IH; reflexivity.
Qed.

(** X10. The initiate-call endpoint answers 200 or 500 and nothing else:
    every failure of the CRM, the normaliser, the voice provider or the
    telephony provider reaches the caller as status 500. (The HTTP client
    raises its own exceptions, not FastAPI's.) *)
Theorem initiate_call_200_or_500 (env : Env) (g : Globals) (name : string) :
  (forall prompt sc d, voice_post env VOICE_API_URL prompt <> inl (HTTPException sc d)) ->
  (exists resp, result_of (initiate_call name env g) = inr resp /\
                status_of (serve (initiate_call name) env g).1.1 = 200%N) \/
  (exists detail, result_of (initiate_call name env g) = inl (HTTPException 500 detail) /\
                  status_of (serve (initiate_call name) env g).1.1 = 500%N).
Proof.
  intros Hlib.
  assert (Hserve : forall r, result_of (initiate_call name env g) = r ->
                     (serve (initiate_call name) env g).1.1 = respond r).
  { intros r <-. unfold serve, result_of.
    destruct (initiate_call name env g) as [[? ?] ?]. reflexivity. }
  pose proof (initiate_call_run env g name) as H. cbv zeta in H.
  destruct (hubspot_do_search env name) as [e|[|first rest]].
  - destruct H as (H & _). right. eexists. split; [exact H|]. rewrite (Hserve _ H). reflexivity.
  - destruct H as (H & _). right. eexists. split; [exact H|]. rewrite (Hserve _ H). reflexivity.
  - destruct (create_response_object _ _ first) as [e|c] eqn:Ec.
    + destruct H as (H & _). right.
      destruct e as [sc d| |];
        [exfalso; exact (create_response_object_not_http _ _ _ _ _ Ec)| |];
        (eexists; split; [exact H|]; rewrite (Hserve _ H); reflexivity).
    + destruct (voice_post env VOICE_API_URL _) as [e|resp] eqn:Ep.
      * destruct H as (H & _). right.
        destruct e as [sc d| |]; [exfalso; exact (Hlib _ _ _ Ep)| |];
          (eexists; split; [exact H|]; rewrite (Hserve _ H); reflexivity).
      * destruct (resp !! "joinUrl") as [[|ch j]|].
        -- destruct H as (H & _). right. eexists. split; [exact H|].
           rewrite (Hserve _ H). reflexivity.
        -- destruct (twilio_calls_create env _ _ _) as [e|sid]; destruct H as (H & _).
           ++ right. eexists. split; [exact H|]. rewrite (Hserve _ H). reflexivity.
           ++ left. eexists. split; [exact H|]. rewrite (Hserve _ H). reflexivity.
        -- destruct H as (H & _). right. eexists. split; [exact H|].
           rewrite (Hserve _ H). reflexivity.
Qed.

Lemma initiate_call_200_or_500_witness :
  status_of (serve (initiate_call "Nobody") Demo.env Demo.globals).1.1 = 500%N.
Proof.
  destruct (initiate_call_200_or_500 Demo.env Demo.globals "Nobody")
    as [(resp & Hr & _)|(d & _ & Hs)].
  - intros prompt sc d. discriminate.
  - vm_compute in Hr. discriminate.
  - exact Hs.
Defined.

(** X11. When every step succeeds, the response carries the telephony
    call's sid, the join URL and the voice call id; the telephone call goes
    to the record's phone number with the fixed status callback; and the
    globals end up holding the voice call id, the sid and the customer name
    of the CRM record, stripped, which need not be the name that was
    asked for. *)
Theorem initiate_call_success (env : Env) (g : Globals) (name : string)
    (first : gmap string (option string)) (rest : list (gmap string (option string)))
    (c : ContactResponse) (resp : gmap string string) (join_url sid : string) :
  hubspot_do_search env name = inr (first :: rest) ->
  create_response_object (DESTINATION_PHONE_NUMBER env) (datetime_now env) first = inr c ->
  voice_post env VOICE_API_URL (fill (prompt_kwargs c) prompt_segments) = inr resp ->
  resp !! "joinUrl" = Some join_url ->
  join_url <> EmptyString ->
  twilio_calls_create env (twiml_for join_url) (phone_number c) STATUS_CALLBACK_URL
    = inr sid ->
  let r := initiate_call name env g in
  result_of r = inr {| icr_call_sid := sid;
                       icr_join_url := join_url;
                       icr_call_id := resp !! "callId";
                       icr_message := "Call initiated successfully for " +:+ name |} /\
  globals_of r = {| voice_call_id := resp !! "callId";
                    twilio_call_id := sid;
                    transcription_customer_name := customer_name c |} /\
  twilio_calls (events_of r)
    = [(twiml_for join_url, phone_number c, STATUS_CALLBACK_URL)] /\
  (first !! "phone_number" = None -> phone_number c = DESTINATION_PHONE_NUMBER env).
Proof.
  intros Hs Hc Hp Hj Hne Ht r. subst r.
  pose proof (initiate_call_run env g name) as H. cbv zeta in H.
  rewrite Hs, Hc, Hp, Hj in H.
  destruct join_url as [|ch j]; [contradiction|].
  rewrite Ht in H. destruct H as (Hr & Hg & He).
  split; [exact Hr|]. split; [exact Hg|]. split.
  - rewrite <- twilio_calls_effects, He. reflexivity.
  - intros Habs.
    destruct (create_response_object_inv _ _ _ _ Hc)
      as (raw & _ & _ & _ & _ & _ & _ & _ & _ & _ & _ & Hphone & _).
    rewrite (py_get_absent _ _ _ Habs) in Hphone. congruence.
Qed.

Lemma initiate_call_success_witness :
  globals_of (initiate_call "Asha Rao" Demo.env initial_globals) = Demo.globals.
Proof.
  destruct (create_response_object (DESTINATION_PHONE_NUMBER Demo.env)
              (datetime_now Demo.env) Demo.asha) as [e|c] eqn:Ec;
    [vm_compute in Ec; discriminate|].
  assert (Hn : customer_name c = "Asha Rao").
  { vm_compute in Ec. injection Ec as <-. reflexivity. }
  assert (Hph : phone_number c = "+918919025218").
  { vm_compute in Ec. injection Ec as <-. reflexivity. }
  pose proof (initiate_call_success Demo.env initial_globals "Asha Rao" Demo.asha []
                c Demo.voice_response "wss://voice.example/join/vc-1" "CA0001"
                eq_refl Ec eq_refl eq_refl) as H.
  destruct H as (_ & Hg & _); [discriminate|reflexivity|].
  rewrite Hg, Hn. reflexivity.
Defined.

(** X12. Nothing is rolled back. When the voice session has been created
    and the pipeline then fails, for want of a join URL or because the
    telephony provider refuses the call, the request ends in a 500 and the
    current session is nevertheless the new one. *)
Theorem initiate_call_no_rollback (env : Env) (g : Globals) (name : string)
    (first : gmap string (option string)) (rest : list (gmap string (option string)))
    (c : ContactResponse) (resp : gmap string string) :
  hubspot_do_search env name = inr (first :: rest) ->
  create_response_object (DESTINATION_PHONE_NUMBER env) (datetime_now env) first = inr c ->
  voice_post env VOICE_API_URL (fill (prompt_kwargs c) prompt_segments) = inr resp ->
  let r := initiate_call name env g in
  (forall e, result_of r = inl e ->
     (exists detail, e = HTTPException 500 detail) /\
     current_session (globals_of r) = (resp !! "callId", customer_name c) /\
     twilio_call_id (globals_of r) = twilio_call_id g).
Proof.
  intros Hs Hc Hp r e. subst r.
  pose proof (initiate_call_run env g name) as H. cbv zeta in H.
  rewrite Hs, Hc, Hp in H.
  destruct (resp !! "joinUrl") as [[|ch j]|].
  - destruct H as (-> & -> & _). intros [= <-]. repeat split. eexists. reflexivity.
  - destruct (twilio_calls_create env _ _ _) as [e'|sid]; destruct H as (-> & -> & _).
    + intros [= <-]. repeat split. eexists. reflexivity.
    + discriminate.
  - destruct H as (-> & -> & _). intros [= <-]. repeat split. eexists. reflexivity.
Qed.

Lemma initiate_call_no_rollback_witness :
  current_session (globals_of (initiate_call "Asha Rao" Demo2.env_no_twilio initial_globals))
  = (Some "vc-1", "Asha Rao").
Proof.
  destruct (create_response_object (DESTINATION_PHONE_NUMBER Demo2.env_no_twilio)
              (datetime_now Demo2.env_no_twilio) Demo.asha) as [e|c] eqn:Ec;
    [vm_compute in Ec; discriminate|].
  assert (Hn : customer_name c = "Asha Rao").
  { vm_compute in Ec. injection Ec as <-. reflexivity. }
  destruct (result_of (initiate_call "Asha Rao" Demo2.env_no_twilio initial_globals))
    as [e|ok] eqn:Er; [|vm_compute in Er; discriminate].
  destruct (initiate_call_no_rollback Demo2.env_no_twilio initial_globals "Asha Rao"
              Demo.asha [] c Demo.voice_response eq_refl Ec eq_refl e Er) as (_ & Hcs & _).
  rewrite Hcs, Hn. reflexivity.
Defined.

(** X13. The steps are gated in order. The CRM is searched exactly once;
    the voice provider is asked only for a record that was found and
    normalised; the telephony provider is asked only after the voice
    provider accepted the call and returned a non-empty join URL. *)
Theorem initiate_call_gating (env : Env) (g : Globals) (name : string) :
  let ev := effects (events_of (initiate_call name env g)) in
  ev = [EvSearch name] \/
  (exists first rest c prompt,
     hubspot_do_search env name = inr (first :: rest) /\
     create_response_object (DESTINATION_PHONE_NUMBER env) (datetime_now env) first = inr c /\
     prompt = fill (prompt_kwargs c) prompt_segments /\
     (ev = [EvSearch name; EvPost VOICE_API_URL prompt] \/
      exists resp join_url,
        voice_post env VOICE_API_URL prompt = inr resp /\
        resp !! "joinUrl" = Some join_url /\ join_url <> EmptyString /\
        ev = [EvSearch name; EvPost VOICE_API_URL prompt;
              EvTwilioCreate (twiml_for join_url) (phone_number c) STATUS_CALLBACK_URL])).
Proof.
  intros ev. subst ev.
  pose proof (initiate_call_run env g name) as H. cbv zeta in H.
  destruct (hubspot_do_search env name) as [e|[|first rest]];
    [left; apply H..|].
  destruct (create_response_object _ _ first) as [e|c] eqn:Ec; [left; apply H|].
  right. exists first, rest, c, (fill (prompt_kwargs c) prompt_segments).
  split; [reflexivity|]. split; [exact Ec|]. split; [reflexivity|].
  destruct (voice_post env VOICE_API_URL _) as [e|resp] eqn:Ep; [left; apply H|].
  destruct (resp !! "joinUrl") as [[|ch j]|] eqn:Ej; [left; apply H| |left; apply H].
  right. exists resp, (String ch j).
  split; [first [exact Ep|reflexivity]|].
  split; [first [exact Ej|reflexivity]|]. split; [discriminate|].
  destruct (twilio_calls_create env _ _ _); apply H.
Qed.

(** ** The other endpoints *)

(** X14. The fetch-contact endpoint answers 400 for an empty name, without
    asking the CRM. For any other name it searches once and leaves the
    globals alone; it answers 200 with the normalised first result, a plain
    500 when the normaliser raises on that result, and a 500 from the CRM
    lookup otherwise. *)
Theorem get_hubspot_contact_outcomes (env : Env) (g : Globals) (name : string) :
  let r := serve (get_hubspot_contact name) env g in
  (name = EmptyString ->
   r = (ResponseError 400 "customer_name is required", g, [])) /\
  (name <> EmptyString ->
   r.1.2 = g /\
   effects r.2 = [EvSearch name] /\
   match hubspot_do_search env name with
   | inr (first :: _) =>
       match create_response_object (DESTINATION_PHONE_NUMBER env) (datetime_now env) first with
       | inr c => r.1.1 = Response200 c
       | inl _ => r.1.1 = ResponseError 500 "Internal Server Error"
       end
   | _ => exists detail, r.1.1 = ResponseError 500 detail
   end).
Proof.
  intros r. subst r. split.
  - intros ->. reflexivity.
  - intros Hne. unfold get_hubspot_contact.
    destruct (String.eqb_spec name EmptyString) as [E|_]; [contradiction|].
    unfold_services. simpl.
    destruct (hubspot_do_search env name) as [e|[|first rest]]; simpl.
    + repeat split. eexists. reflexivity.
    + repeat split. eexists. reflexivity.
    + destruct (create_response_object _ _ first) as [e|c] eqn:Ec; simpl.
      * destruct e as [sc d| |];
          [exfalso; exact (create_response_object_not_http _ _ _ _ _ Ec)| |];
          repeat split.
      * repeat split.
Qed.

Lemma get_hubspot_contact_outcomes_witness :
  serve (get_hubspot_contact EmptyString) Demo.env Demo.globals
  = (ResponseError 400 "customer_name is required", Demo.globals, []).
Proof.
  exact (proj1 (get_hubspot_contact_outcomes Demo.env Demo.globals EmptyString) eq_refl).
Defined.

(** X15. The webhook's answer. For any status but [completed] the body is
    the acknowledgement. For [completed] it is the acknowledgement exactly
    when the transcript was fetched, is a JSON object, and, if it has turns,
    the storage directory could be created; in every other case it is the
    error body. *)
Theorem call_status_body (env : Env) (g : Globals) (u : CallStatusUpdate) :
  let r := result_of (handle_call_status u env g) in
  let ack := [("message", "Status received"); ("status", "ok")] in
  (CallStatus u <> "completed" -> r = inr ack) /\
  (CallStatus u = "completed" ->
   (r = inr ack <->
    exists fields,
      voice_get env (transcript_url (voice_call_id g)) = inr (JObj fields) /\
      (has_turns (JObj fields) = true -> os_makedirs env "conversations" = None))).
Proof.
  intros r ack. subst r ack. split.
  - intros Hne. unfold_run.
    destruct (String.eqb_spec (CallStatus u) "completed") as [E|_]; [contradiction|].
    repeat match goal with
           | |- context [String.eqb ?a ?b] => destruct (String.eqb a b)
           end; reflexivity.
  - intros Hc. unfold_run. rewrite Hc. simpl.
    destruct (voice_get env _) as [e|t]; simpl.
    + split; [destruct e; discriminate|]. intros (f & [=] & _).
    + unfold has_turns.
      destruct t as [| | | | |fields]; simpl;
        try (split; [discriminate|intros (f & [=] & _)]).
      destruct (truthy (default JNull (assoc "results" fields))) eqn:Et; simpl.
      * destruct (os_makedirs env _) as [e|]; simpl.
        -- split; [discriminate|]. intros (f & [= <-] & H). specialize (H Et).
           discriminate.
        -- destruct (open_and_dump env _ _); simpl;
             (split; [intros _; exists fields; split; [reflexivity|intros _; reflexivity]
                     |intros _; reflexivity]).
      * split; [intros _; exists fields; split; [reflexivity|congruence]
               |intros _; reflexivity].
Qed.

Lemma call_status_body_witness :
  result_of (handle_call_status (Demo.update "CA1" "no-answer") Demo.env Demo.globals)
  = inr [("message", "Status received"); ("status", "ok")].
Proof.
  apply (proj1 (call_status_body Demo.env Demo.globals (Demo.update "CA1" "no-answer"))).
  discriminate.
Defined.

(** X16. A transcript that cannot be written is lost silently: the
    directory is there, the write fails, the failure is printed, no file is
    persisted, and the webhook still acknowledges with status ok. *)
Theorem call_status_write_failure_is_silent (env : Env) (g : Globals)
    (u : CallStatusUpdate) (t : json) (e : exn) :
  CallStatus u = "completed" ->
  voice_get env (transcript_url (voice_call_id g)) = inr t ->
  has_turns t = true ->
  os_makedirs env "conversations" = None ->
  open_and_dump env
    (transcript_file_name (transcription_customer_name g) (datetime_now env)) t = Some e ->
  let r := handle_call_status u env g in
  result_of r = inr [("message", "Status received"); ("status", "ok")] /\
  persisted (events_of r) = [] /\
  In (EvPrint [PStr "Failed to save the conversation: "; PExn e]) (events_of r) /\
  (forall msg, ~ In (EvLogError msg) (events_of r)).
Proof.
  intros Hc Hget Hturns Hdir Hw r. subst r.
  unfold has_turns in Hturns.
  destruct (json_get t "results") as [x|res] eqn:Hres; [discriminate|].
  pose proof (save_conversations_best_effort_write env g t
                (transcription_customer_name g) Hdir) as Hsave.
  cbv zeta in Hsave. rewrite Hw in Hsave.
  unfold handle_call_status, fetch_transcript, requests_get, try_except, bind, ret,
    raise, lift, print_str, print, logger_error, emit, get_globals, except_Exception,
    except_RequestException, result_of, events_of.
  rewrite Hc.
  cbn -[save_conversations transcript_url String.append json_get truthy].
  rewrite Hget.
  cbn -[save_conversations transcript_url String.append json_get truthy].
  rewrite Hres.
  cbn -[save_conversations transcript_url String.append json_get truthy].
  rewrite Hturns, Hsave.
  cbn -[transcript_url String.append].
  split; [reflexivity|]. split; [reflexivity|]. split.
  - do 10 right. left. reflexivity.
  - intros msg Hin. repeat (destruct Hin as [Hin|Hin]; [discriminate|]). destruct Hin.
Qed.

Lemma call_status_write_failure_is_silent_witness :
  persisted (events_of (handle_call_status (Demo.update "CA1" "completed")
                          Demo2.env_no_write Demo.globals)) = [].
Proof.
  eapply (proj1 (proj2 (call_status_write_failure_is_silent Demo2.env_no_write Demo.globals
                          (Demo.update "CA1" "completed") Demo.transcript _
                          eq_refl eq_refl eq_refl eq_refl eq_refl))).
Defined.

(** X17. The webhook handler touches nothing but the transcript endpoint
    and the disk: whatever the event, it makes no CRM search, posts nothing
    to the voice provider, places no telephone call and leaves the globals
    as they were. *)
Theorem call_status_touches_nothing_else (env : Env) (g : Globals)
    (u : CallStatusUpdate) :
  let r := handle_call_status u env g in
  searches (events_of r) = [] /\
  posts (events_of r) = [] /\
  twilio_calls (events_of r) = [] /\
  globals_of r = g.
Proof.
  intros r. subst r.
  rewrite <- searches_effects, <- posts_effects, <- twilio_calls_effects.
  assert (Hg : globals_of (handle_call_status u env g) = g).
  { destruct (handle_call_status_returns env g u) as (? & _ & -> & _). reflexivity. }
  destruct (String.eqb_spec (CallStatus u) "completed") as [Hc|Hne].
  - rewrite (completed_effects env g u Hc). cbv zeta.
    destruct (voice_get env _) as [e|t]; [repeat split; exact Hg|].
    destruct (has_turns t); [|repeat split; exact Hg].
    destruct (os_makedirs env _); [repeat split; exact Hg|].
    destruct (open_and_dump env _ t); repeat split; exact Hg.
  - rewrite (other_status_no_effects env g u Hne). repeat split. exact Hg.
Qed.

(** X18. The fetch-transcript endpoint asks the voice provider once, for
    the call id of the request, and leaves the globals and the disk alone.
    It answers 200 exactly when the provider's payload is a bare JSON
    string. *)
Theorem get_call_transcript_outcomes (env : Env) (g : Globals) (call_id : string) :
  let r := serve (get_call_transcript call_id) env g in
  r.1.2 = g /\
  effects r.2 = [EvGet (transcript_url (Some call_id))] /\
  ((exists body, r.1.1 = Response200 body) <->
   (exists text, voice_get env (transcript_url (Some call_id)) = inr (JStr text))).
Proof.
  intros r. subst r. unfold_run. simpl.
  destruct (voice_get env _) as [e|t]; simpl.
  - split; [destruct e; reflexivity|]. split; [destruct e; reflexivity|].
    split; [destruct e; intros (bd & [=])|intros (x & [=])].
  - destruct t; simpl; (split; [reflexivity|]); (split; [reflexivity|]);
      (split; [intros (bd & Hb); try discriminate; eexists; reflexivity
              |intros (x & [=]); eexists; reflexivity]).
Qed.

(** X19. [save_conversations] raises exactly when the storage directory
    cannot be created. In every case it leaves the globals alone and writes
    at most one file, the given transcript under the name built from the
    customer name and the clock. *)
Theorem save_conversations_outcomes (env : Env) (g : Globals)
    (transcript : json) (name : string) :
  let r := save_conversations transcript name env g in
  ((exists e, result_of r = inl e) <-> (exists e, os_makedirs env "conversations" = Some e)) /\
  globals_of r = g /\
  (persisted (events_of r) = [] \/
   persisted (events_of r)
     = [(transcript_file_name name (datetime_now env), transcript)]).
Proof.
  intros r. subst r. unfold_run. unfold transcript_file_name.
  destruct (os_makedirs env _) as [e|]; simpl.
  - split; [split; intros _; exists e; reflexivity|]. split; [reflexivity|left; reflexivity].
  - destruct (open_and_dump env _ transcript) as [e|]; simpl.
    + split; [split; intros (x & [=])|]. split; [reflexivity|left; reflexivity].
    + split; [split; intros (x & [=])|]. split; [reflexivity|right; reflexivity].
Qed.

(** X20. Ending a call: the endpoint always returns a body and leaves the
    globals alone. When the provider takes the request the body is the
    success message alone; when the client raises, the body carries the
    error, wrapped as a 500 by [end_call], with status error. *)
Theorem end_call_specific_outcomes (twilio_calls_update : string -> exn + unit)
    (env : Env) (g : Globals) (call_sid : string) :
  let r := end_call_specific twilio_calls_update call_sid env g in
  globals_of r = g /\
  (twilio_calls_update call_sid = inr tt ->
   result_of r = inr [("message", "Call " +:+ call_sid +:+ " ended successfully")]) /\
  (forall e, twilio_calls_update call_sid = inl e ->
   result_of r =
     inr [("message",
           "Error ending call: "
           +:+ str_exn (HTTPException 500 ("Failed to terminate call: " +:+ str_exn e)));
          ("status", "error")] /\
   status_of (serve (end_call_specific twilio_calls_update call_sid) env g).1.1 = 200%N).
Proof.
  intros r. subst r. unfold_services. simpl.
  destruct (twilio_calls_update call_sid) as [e|[]]; simpl.
  - split; [reflexivity|]. split; [discriminate|].
    intros e' [= <-]. split; reflexivity.
  - split; [reflexivity|]. split; [reflexivity|]. intros e [=].
Qed.

Lemma end_call_specific_outcomes_witness :
  result_of (end_call_specific Demo2.update_gone "CA0001" Demo.env Demo.globals)
  = inr [("message",
          "Error ending call: 500: Failed to terminate call: HTTP 404 error: call not found");
         ("status", "error")].
Proof.
  exact (proj1 (proj2 (proj2 (end_call_specific_outcomes Demo2.update_gone
                                Demo.env Demo.globals "CA0001")) _ eq_refl)).
Defined.

(** ** Overlapping calls *)

Lemma run_sessions_app (calls1 calls2 : list (Env * ContactResponse)) (g : Globals) :
  run_sessions (calls1 ++ calls2) g = run_sessions calls2 (run_sessions calls1 g).
Proof.
  revert g. induction calls1 as [|[env c] calls1 IH]; intros g; [reflexivity|].
  cbn [run_sessions app]. apply IH.
Qed.

(** X21. The attribution of a status event. After any calls, once the
    voice provider has accepted a further [create_call], a [completed]
    event, whatever call it reports, fetches the transcript of that last
    session and saves it under that last customer's name. *)
Theorem completed_event_goes_to_last_session
    (calls : list (Env * ContactResponse)) (g : Globals)
    (env_b : Env) (c_b : ContactResponse) (resp_b : gmap string string)
    (env : Env) (u : CallStatusUpdate) :
  voice_post env_b VOICE_API_URL (fill (prompt_kwargs c_b) prompt_segments) = inr resp_b ->
  CallStatus u = "completed" ->
  let g' := run_sessions (calls ++ [(env_b, c_b)]) g in
  let r := handle_call_status u env g' in
  fetches (events_of r) = [transcript_url (resp_b !! "callId")] /\
  (forall p d, In (p, d) (persisted (events_of r)) ->
     p = transcript_file_name (customer_name c_b) (datetime_now env)).
Proof.
  intros Hp Hc g' r. subst r.
  assert (Hs : current_session g' = (resp_b !! "callId", customer_name c_b)).
  { subst g'. rewrite run_sessions_app. cbn [run_sessions].
    rewrite create_call_globals. unfold session_of. cbn [fst snd].
    rewrite (formatted_prompt_ok c_b), Hp. reflexivity. }
  injection Hs as Hid Hname.
  split.
  - rewrite (completed_fetches env g' u Hc), Hid. reflexivity.
  - intros p d Hin. rewrite (completed_persisted_path env g' u Hc p d Hin), Hname.
    reflexivity.
Qed.

Lemma completed_event_goes_to_last_session_witness :
  fetches (events_of
    (handle_call_status (Demo.update "CA0001" "completed") Demo.env
       (run_sessions ([(Demo.env, Demo.customer "Asha Rao")]
                      ++ [(Demo.env2, Demo.customer "Ravi")]) initial_globals)))
  = [transcript_url (Some "vc-2")].
Proof.
  exact (proj1 (completed_event_goes_to_last_session
                  [(Demo.env, Demo.customer "Asha Rao")] initial_globals
                  Demo.env2 (Demo.customer "Ravi") {[ "callId" := "vc-2" ]}
                  Demo.env (Demo.update "CA0001" "completed") eq_refl eq_refl)).
Defined.

(** ** File names and URLs *)

Lemma length_app (a b : string) :
  String.length (a +:+ b) = (String.length a + String.length b)%nat.
Proof.
  induction a as [|x a IH]; [reflexivity|].
  rewrite append_cons. cbn [String.length]. rewrite IH. reflexivity.
Qed.

Lemma app_inj_length (a a' b b' : string) :
  String.length a = String.length a' ->
  a +:+ b = a' +:+ b' -> a = a' /\ b = b'.
Proof.
  revert a'. induction a as [|x a IH]; intros [|x' a'] Hlen; try discriminate.
  - intros H. split; [reflexivity|exact H].
  - rewrite !append_cons. intros [= <- H].
    injection Hlen as Hlen. destruct (IH a' Hlen H) as [<- <-]. split; reflexivity.
Qed.

Lemma app_inv_head (s a b : string) : s +:+ a = s +:+ b -> a = b.
Proof. intros H. exact (proj2 (app_inj_length s s a b eq_refl H)). Qed.

Lemma app_inv_tail (a b s : string) : a +:+ s = b +:+ s -> a = b.
Proof.
  intros H. apply (app_inj_length a b s s); [|exact H].
  apply (f_equal String.length) in H. rewrite !length_app in H. lia.
Qed.

Lemma below_forallb (P : N -> bool) (k : nat) :
  forallb P (below k) = true -> forall n, (n < N.of_nat k)%N -> P n = true.
Proof.
  intros H n Hn. rewrite forallb_forall in H. apply H.
  unfold below. apply in_map_iff. exists (N.to_nat n).
  split; [apply N2Nat.id|]. apply in_seq. lia.
Qed.

Lemma zpad2_reads_back (n : N) :
  (n < 100)%N ->
  String.length (Py.zpad 2 n) = 2%nat /\ read_decimal 0 (Py.zpad 2 n) = n.
Proof.
  intros Hn.
  assert (H : zpad_reads_back 2 n = true).
  { apply (below_forallb (zpad_reads_back 2) 100); [vm_compute; reflexivity|exact Hn]. }
  unfold zpad_reads_back in H. apply andb_prop in H as [H1 H2].
  split; [apply Nat.eqb_eq, H1|apply N.eqb_eq, H2].
Qed.

Lemma zpad4_reads_back (n : N) :
  (n < 10000)%N ->
  String.length (Py.zpad 4 n) = 4%nat /\ read_decimal 0 (Py.zpad 4 n) = n.
Proof.
  intros Hn.
  assert (H : zpad_reads_back 4 n = true).
  { apply (below_forallb (zpad_reads_back 4) 10000); [vm_compute; reflexivity|exact Hn]. }
  unfold zpad_reads_back in H. apply andb_prop in H as [H1 H2].
  split; [apply Nat.eqb_eq, H1|apply N.eqb_eq, H2].
Qed.

Lemma zpad2_inj (n n' : N) :
  (n < 100)%N -> (n' < 100)%N -> Py.zpad 2 n = Py.zpad 2 n' -> n = n'.
Proof.
  intros Hn Hn' H.
  rewrite <- (proj2 (zpad2_reads_back n Hn)), <- (proj2 (zpad2_reads_back n' Hn')), H.
  reflexivity.
Qed.

Lemma zpad4_inj (n n' : N) :
  (n < 10000)%N -> (n' < 10000)%N -> Py.zpad 4 n = Py.zpad 4 n' -> n = n'.
Proof.
  intros Hn Hn' H.
  rewrite <- (proj2 (zpad4_reads_back n Hn)), <- (proj2 (zpad4_reads_back n' Hn')), H.
  reflexivity.
Qed.

(** The stamp tells the second. *)
Lemma strftime_stamp_inj (t1 t2 : datetime) :
  datetime_ok t1 -> datetime_ok t2 ->
  strftime_stamp t1 = strftime_stamp t2 ->
  year t1 = year t2 /\ month t1 = month t2 /\ day t1 = day t2 /\
  hour t1 = hour t2 /\ minute t1 = minute t2 /\ second t1 = second t2.
Proof.
  intros (Hy1 & Hm1 & Hd1 & Hh1 & Hmi1 & Hs1) (Hy2 & Hm2 & Hd2 & Hh2 & Hmi2 & Hs2).
  unfold strftime_stamp. intros H.
  apply app_inj_length in H as [Hy H];
    [|rewrite (proj1 (zpad4_reads_back (year t1) ltac:(lia))),
              (proj1 (zpad4_reads_back (year t2) ltac:(lia))); reflexivity].
  apply app_inj_length in H as [Hm H];
    [|rewrite (proj1 (zpad2_reads_back (month t1) ltac:(lia))),
              (proj1 (zpad2_reads_back (month t2) ltac:(lia))); reflexivity].
  apply app_inj_length in H as [Hd H];
    [|rewrite (proj1 (zpad2_reads_back (day t1) ltac:(lia))),
              (proj1 (zpad2_reads_back (day t2) ltac:(lia))); reflexivity].
  apply app_inj_length in H as [_ H]; [|reflexivity].
  apply app_inj_length in H as [Hh H];
    [|rewrite (proj1 (zpad2_reads_back (hour t1) ltac:(lia))),
              (proj1 (zpad2_reads_back (hour t2) ltac:(lia))); reflexivity].
  apply app_inj_length in H as [Hmi Hs];
    [|rewrite (proj1 (zpad2_reads_back (minute t1) ltac:(lia))),
              (proj1 (zpad2_reads_back (minute t2) ltac:(lia))); reflexivity].
  repeat split.
  - apply zpad4_inj; [lia|lia|exact Hy].
  - apply zpad2_inj; [lia|lia|exact Hm].
  - apply zpad2_inj; [lia|lia|exact Hd].
  - apply zpad2_inj; [lia|lia|exact Hh].
  - apply zpad2_inj; [lia|lia|exact Hmi].
  - apply zpad2_inj; [lia|lia|exact Hs].
Qed.

(** X22. Two transcripts of one customer go to the same file exactly when
    they are saved within the same second: the file name tells the year,
    month, day, hour, minute and second of the clock and nothing finer. *)
Theorem transcript_file_collides_iff_same_second (name : string) (t1 t2 : datetime) :
  datetime_ok t1 -> datetime_ok t2 ->
  (transcript_file_name name t1 = transcript_file_name name t2 <->
   year t1 = year t2 /\ month t1 = month t2 /\ day t1 = day t2 /\
   hour t1 = hour t2 /\ minute t1 = minute t2 /\ second t1 = second t2).
Proof.
  intros H1 H2. split.
  - unfold transcript_file_name. intros H.
    do 4 apply app_inv_head in H. apply app_inv_tail in H.
    exact (strftime_stamp_inj t1 t2 H1 H2 H).
  - intros (Hy & Hm & Hd & Hh & Hmi & Hs).
    apply transcript_file_name_seconds; assumption.
Qed.

Lemma transcript_file_collides_iff_same_second_witness :
  transcript_file_name "Asha Rao" Demo.now = transcript_file_name "Asha Rao" Demo2.later.
Proof.
  apply (proj2 (transcript_file_collides_iff_same_second "Asha Rao" Demo.now Demo2.later
                  ltac:(vm_compute; intuition discriminate)
                  ltac:(vm_compute; intuition discriminate))).
  repeat split.
Defined.

(** X23. At one reading of the clock, different customer names give
    different file names. *)
Theorem transcript_file_name_inj (name1 name2 : string) (t : datetime) :
  transcript_file_name name1 t = transcript_file_name name2 t -> name1 = name2.
Proof.
  unfold transcript_file_name. intros H.
  do 2 apply app_inv_head in H. exact (app_inv_tail _ _ _ H).
Qed.

Lemma transcript_file_name_inj_witness :
  "Asha Rao" = "Asha Rao".
Proof.
  exact (transcript_file_name_inj "Asha Rao" "Asha Rao" Demo.now eq_refl).
Defined.

(** X24. Different voice call ids are fetched from different URLs; a call
    id that is [None] is fetched from the URL of the id spelled None. *)
Theorem transcript_url_inj (id1 id2 : string) :
  (transcript_url (Some id1) = transcript_url (Some id2) -> id1 = id2) /\
  transcript_url None = transcript_url (Some "None").
Proof.
  split; [|reflexivity].
  unfold transcript_url. cbn [Py.str_of_opt]. intros H.
  do 2 apply app_inv_head in H. exact (app_inv_tail _ _ _ H).
Qed.
